(** * Gurudatta Travels: a shallow embedding of [app.py]

    The Flask application of [src/app.py] keeps four tables (user,
    destination, package, booking) behind SQLAlchemy and serves a handful
    of routes.  This development embeds the models, the queries and the
    route handlers as functions over an explicit application state, and
    proves the properties that the specification states about them.

    Conventions of the embedding:
    - a table is the list of its rows in storage order; the primary key is
      the [id] field of a row, and a fresh key is one more than the largest
      key in the table;
    - Python [int] is [Z], Python [float] is the primitive binary64 [float],
      [str] is [string], a nullable column or a missing form field is an
      [option];
    - a handler is a computation in a state-and-exception monad; an
      exception leaves the store as it was before the request, because
      every handler commits as its last database action;
    - the store is the SQLite database that the application uses unless
      [DATABASE_URL] names another one: NOT NULL and UNIQUE are enforced
      when a row is inserted, foreign keys are not; an INTEGER column holds
      a signed 64-bit value and a larger [int] raises [OverflowError] when
      it is bound to the statement; a NaN is stored as NULL, which a NOT
      NULL column refuses;
    - the builtins [int()] and [float()] applied to a string and werkzeug's
      [secure_filename] are parameters of the handlers. *)

From Stdlib Require Import ZArith List String Ascii Bool Lia Floats.
From Stdlib Require Import Permutation Sorted.
Import ListNotations.

Local Open Scope string_scope.
Local Open Scope list_scope.
Local Open Scope Z_scope.

(** ** Python values and exceptions *)

Module Py.

(** The exceptions that the handlers can let escape. [NotFound] is
    werkzeug's HTTP 404, raised by [get_or_404]. *)
Inductive exn : Type :=
| ValueError
| TypeError
| AttributeError
| OverflowError
| IntegrityError
| NotFound.

Inductive result (A : Type) : Type :=
| Ok (a : A)
| Raise (e : exn).
Arguments Ok {A} a.
Arguments Raise {A} e.

(** [float(n)] for an [int] [n], as the interpreter does it when an
    [int] meets a [float] in arithmetic: the nearest binary64 value, ties
    to even, and [OverflowError] when that value is not finite. *)
Definition float_of_int (n : Z) : option float :=
  match binary_normalize prec emax n 0 false with
  | S754_infinity _ => None
  | sf => Some (SF2Prim sf)
  end.

(** [x * n] with [x] a [float] and [n] an [int]. *)
Definition float_mul_int (x : float) (n : Z) : result float :=
  match float_of_int n with
  | Some f => Ok (PrimFloat.mul x f)
  | None => Raise OverflowError
  end.

(** Truth value of a [float]: false exactly for [0.0] and [-0.0]. *)
Definition float_bool (x : float) : bool := negb (PrimFloat.eqb x PrimFloat.zero).

(** A number that is either a [float] or an [int], as the revenue figure
    [... .scalar() or 0] is. *)
Inductive num : Type :=
| Float (x : float)
| Int (n : Z).

(** [str.lower] on ASCII letters. *)
Definition lower_ascii (c : ascii) : ascii :=
  let n := nat_of_ascii c in
  if (Nat.leb 65 n && Nat.leb n 90)%bool then ascii_of_nat (n + 32) else c.

Fixpoint lower (s : string) : string :=
  match s with
  | EmptyString => EmptyString
  | String c r => String (lower_ascii c) (lower r)
  end.

(** [s.rsplit('.', 1)[1]] when ['.' in s]: the text after the last dot. *)
Fixpoint after_last_dot (s : string) : option string :=
  match s with
  | EmptyString => None
  | String c r =>
      match after_last_dot r with
      | Some e => Some e
      | None => if Ascii.eqb c "."%char then Some r else None
      end
  end.

End Py.
Import Py.

(** ** The models *)

Module User.
Record t : Type := mk {
  id : Z;
  username : string;
  password : string;
  role : string
}.
End User.

Module Destination.
Record t : Type := mk {
  id : Z;
  name : string;
  location : string;
  description : option string;
  best_season : option string;
  is_active : bool
}.
End Destination.

Module Package.
Record t : Type := mk {
  id : Z;
  name : string;
  duration : option string;
  price : float;
  max_capacity : Z;
  image_file : string;
  dest_id : Z
}.
End Package.

Module Booking.
Record t : Type := mk {
  id : Z;
  user_id : Z;
  package_id : Z;
  travelers : Z;
  total_price : float;
  status : string;
  date_booked : Z
}.

Definition with_status (s : string) (b : t) : t :=
  mk (id b) (user_id b) (package_id b) (travelers b) (total_price b) s (date_booked b).
End Booking.

(** ** The store *)

Record database : Type := mk_database {
users : list User.t;
destinations : list Destination.t;
packages : list Package.t;
bookings : list Booking.t
}.

Definition with_destinations (ds : list Destination.t) (d : database) : database :=
mk_database (users d) ds (packages d) (bookings d).
Definition with_packages (ps : list Package.t) (d : database) : database :=
mk_database (users d) (destinations d) ps (bookings d).
Definition with_bookings (bs : list Booking.t) (d : database) : database :=
mk_database (users d) (destinations d) (packages d) bs.

(** [Model.query.get(i)]: the row with primary key [i]. *)
Definition query_get {A : Type} (key : A -> Z) (i : Z) (rows : list A) : option A :=
find (fun r => key r =? i) rows.

(** The key given to the next inserted row. *)
Definition next_id (keys : list Z) : Z := 1 + fold_right Z.max 0 keys.

Definition ALLOWED_EXTENSIONS : list string := ["png"; "jpg"; "jpeg"].

Definition allowed_file (filename : string) : bool :=
match after_last_dot filename with
| Some ext => existsb (String.eqb (lower ext)) ALLOWED_EXTENSIONS
| None => false
end.

(** ** Relational operators

    The queries of the application use an inner join, a filter, an
    aggregate over a group and an ordering; each is a list function. *)

(** [l JOIN r ON on]: the pairs that satisfy [on], in the order of [l]. *)
Definition inner_join {A B : Type} (on : A -> B -> bool) (l : list A) (r : list B)
  : list (A * B) :=
  flat_map (fun a => map (pair a) (filter (on a) r)) l.

(** [GROUP BY key]: one group for every key that occurs, in the order of
    first occurrence; a group keeps its rows in order. *)
Definition group_by {A : Type} (key : A -> Z) (rows : list A) : list (list A) :=
  map (fun k => filter (fun r => key r =? k) rows) (nodup Z.eq_dec (map key rows)).

Fixpoint insert_desc {A : Type} (key : A -> Z) (x : A) (l : list A) : list A :=
  match l with
  | [] => [x]
  | y :: r => if key y <=? key x then x :: l else y :: insert_desc key x r
  end.

(** [ORDER BY key DESC]; rows with equal keys keep their order. *)
Definition order_by_desc {A : Type} (key : A -> Z) (rows : list A) : list A :=
  fold_right (insert_desc key) [] rows.

(** [SUM(column)]: NULL over no rows, else the values added up in order. *)
Definition sql_sum (xs : list float) : option float :=
  match xs with
  | [] => None
  | x :: r => Some (fold_left PrimFloat.add r x)
  end.

(** ** The queries of the routes *)

Definition is_confirmed (b : Booking.t) : bool := String.eqb (Booking.status b) "Confirmed".

(** [Package.query.join(Destination).filter(Destination.is_active == True).all()] *)
Definition active_packages (d : database) : list Package.t :=
  map fst
    (filter (fun pd => Destination.is_active (snd pd))
       (inner_join (fun p ds => Destination.id ds =? Package.dest_id p)
          (packages d) (destinations d))).

(** [query(func.sum(Booking.total_price)).filter_by(status='Confirmed').scalar() or 0] *)
Definition revenue (d : database) : num :=
  match sql_sum (map Booking.total_price (filter is_confirmed (bookings d))) with
  | Some s => if float_bool s then Float s else Int 0
  | None => Int 0
  end.

(** [select_from(Destination).join(Package).join(Booking)] *)
Definition destination_bookings (d : database)
  : list (Destination.t * Package.t * Booking.t) :=
  inner_join (fun dp b => Booking.package_id b =? Package.id (snd dp))
    (inner_join (fun ds p => Package.dest_id p =? Destination.id ds)
       (destinations d) (packages d))
    (bookings d).

(** One result row [(Destination.name, count(Booking.id))] of a group. *)
Definition name_and_count (g : list (Destination.t * Package.t * Booking.t))
  : list (string * Z) :=
  match g with
  | r :: _ => [(Destination.name (fst (fst r)), Z.of_nat (List.length g))]
  | [] => []
  end.

(** [Destination.id] of a row of the join. *)
Definition group_key (r : Destination.t * Package.t * Booking.t) : Z :=
  Destination.id (fst (fst r)).

(** [... .group_by(Destination.id).order_by(func.count(Booking.id).desc())] *)
Definition popular_query (d : database) : list (string * Z) :=
  order_by_desc snd
    (flat_map name_and_count (group_by group_key (destination_bookings d))).

(** [popular[0] if popular else "No Bookings"] with [popular = ... .first()] *)
Definition popular_dest (d : database) : string :=
  match popular_query d with
  | row :: _ => fst row
  | [] => "No Bookings"
  end.

(** ** Requests, responses and the handler monad *)

Inductive http_method : Type := GET | POST.

Record request : Type := mk_request {
  method : http_method;
  form : list (string * string);      (* submitted fields, in order *)
  files : list (string * string);     (* field name and uploaded file name *)
  session_user_id : option Z          (* the account of the session, if any *)
}.

(** [MultiDict.get]: the first value of a key. *)
Fixpoint multidict_get (key : string) (fields : list (string * string)) : option string :=
  match fields with
  | [] => None
  | (k, v) :: r => if String.eqb k key then Some v else multidict_get key r
  end.

Inductive response : Type :=
| redirect (endpoint : string)
| render_index (pkgs : list Package.t)
| render_dashboard (rev : num) (count : Z) (popular : string) (bks : list Booking.t)
| render_add_destination
| render_add_package (dests : list Destination.t).

(** The state a handler works on: the committed store and the flashed
    messages of the session. *)
Record world : Type := mk_world {
  db : database;
  flashes : list (string * string)
}.

Definition M (A : Type) : Type := world -> result (A * world).

Definition ret {A : Type} (a : A) : M A := fun w => Ok (a, w).

Definition bind {A B : Type} (m : M A) (k : A -> M B) : M B :=
  fun w => match m w with
           | Ok (a, w') => k a w'
           | Raise e => Raise e
           end.

Definition raise {A : Type} (e : exn) : M A := fun _ => Raise e.

Definition lift {A : Type} (r : result A) : M A :=
  fun w => match r with Ok a => Ok (a, w) | Raise e => Raise e end.

Definition query {A : Type} (q : database -> A) : M A := fun w => Ok (q (db w), w).

Definition commit (f : database -> database) : M unit :=
  fun w => Ok (tt, mk_world (f (db w)) (flashes w)).

Definition flash (message category : string) : M unit :=
  fun w => Ok (tt, mk_world (db w) (flashes w ++ [(message, category)])).

Declare Scope handler_scope.
Delimit Scope handler_scope with handler.
Notation "x <- m ;; k" := (bind m (fun x => k))
  (at level 61, m at next level, right associativity) : handler_scope.
Notation "m ;;; k" := (bind m (fun _ => k))
  (at level 61, right associativity) : handler_scope.
Local Open Scope handler_scope.

(** What a request leaves behind: the response or the escaped exception,
    and the state; an exception discards the work of the request. *)
Definition run (h : M response) (w : world) : result response * world :=
  match h w with
  | Ok (r, w') => (Ok r, w')
  | Raise e => (Raise e, w)
  end.

(** ** The store's write operations

    [db.session.add(row)] followed by [db.session.commit()]: the row gets
    the next key and the table's defaults.  The values are bound to the
    INSERT statement first, where an [int] outside the INTEGER range raises
    [OverflowError]; the statement then fails with [IntegrityError] on a
    NULL in a NOT NULL column.  A foreign key is not checked. *)

(** The values that an INTEGER column holds. *)
Definition sqlite_integer (n : Z) : bool :=
  (- 2 ^ 63 <=? n) && (n <? 2 ^ 63).

Definition has_key {A : Type} (key : A -> Z) (i : Z) (rows : list A) : bool :=
  existsb (fun r => key r =? i) rows.

Definition insert_destination (name location description best_season : option string)
  : M unit :=
  match name, location with
  | Some n, Some l =>
      commit (fun d =>
        with_destinations
          (destinations d ++
             [Destination.mk (next_id (map Destination.id (destinations d)))
                n l description best_season true]) d)
  | _, _ => raise IntegrityError
  end.

Definition insert_package (name duration : option string) (price : float)
    (max_capacity dest_id : Z) (image_file : string) : M unit :=
  fun w =>
    if sqlite_integer max_capacity && sqlite_integer dest_id then
      match name with
      | Some n =>
          if PrimFloat.is_nan price then Raise IntegrityError
          else
            commit (fun d =>
              with_packages
                (packages d ++
                   [Package.mk (next_id (map Package.id (packages d)))
                      n duration price max_capacity image_file dest_id]) d) w
      | None => Raise IntegrityError
      end
    else Raise OverflowError.

(** [user_id] and [package_id] are keys of rows that the handler has read
    from the store; [total_price] is a nullable column, and the properties
    below that name a stored total take it to be a number. *)
Definition insert_booking (user_id package_id travelers : Z) (total_price : float)
    (utcnow : Z) : M unit :=
  fun w =>
    if sqlite_integer travelers then
      commit (fun d =>
        with_bookings
          (bookings d ++
             [Booking.mk (next_id (map Booking.id (bookings d)))
                user_id package_id travelers total_price "Pending" utcnow]) d) w
    else Raise OverflowError.

(** [row.status = s] on the row with key [i], then [commit()]. *)
Definition update_status (i : Z) (s : string) : M unit :=
  commit (fun d =>
    with_bookings
      (map (fun b => if Booking.id b =? i then Booking.with_status s b else b)
         (bookings d)) d).

(** ** The route handlers *)

(** [current_user]: the account that [load_user] finds for the session. *)
Definition current_user (req : request) (w : world) : option User.t :=
  match session_user_id req with
  | Some i => query_get User.id i (users (db w))
  | None => None
  end.

(** [@login_required]: an anonymous request is sent to the login view. *)
Definition login_required (req : request) (view : User.t -> M response) : M response :=
  fun w =>
    match current_user req w with
    | Some u => view u w
    | None =>
        (flash "Please log in to access this page." "message" ;;;
         ret (redirect "login")) w
    end.

Section Handlers.

(** [int(s)] and [float(s)] on a string: [None] stands for [ValueError]. *)
Variable py_int : string -> option Z.
Variable py_float : string -> option float.
Variable secure_filename : string -> string.

(** [int(x)] where [x] is a form field that may be missing. *)
Definition int_of_field (x : option string) : M Z :=
  match x with
  | None => raise TypeError
  | Some s => match py_int s with Some n => ret n | None => raise ValueError end
  end.

Definition float_of_field (x : option string) : M float :=
  match x with
  | None => raise TypeError
  | Some s => match py_float s with Some f => ret f | None => raise ValueError end
  end.

Definition index (req : request) : M response :=
  active <- query active_packages ;;
  ret (render_index active).

Definition admin_dashboard (req : request) : M response :=
  login_required req (fun u =>
    if negb (String.eqb (User.role u) "admin") then ret (redirect "index")
    else
      rev <- query revenue ;;
      popular <- query popular_dest ;;
      bks <- query (fun d => order_by_desc Booking.date_booked (bookings d)) ;;
      count <- query (fun d => Z.of_nat (List.length (bookings d))) ;;
      ret (render_dashboard rev count popular bks)).

Definition add_destination (req : request) : M response :=
  login_required req (fun _ =>
    match method req with
    | POST =>
        insert_destination
          (multidict_get "name" (form req)) (multidict_get "location" (form req))
          (multidict_get "description" (form req))
          (multidict_get "best_season" (form req)) ;;;
        ret (redirect "admin_dashboard")
    | GET => ret render_add_destination
    end).

(** The name under which an uploaded image is kept; writing the file to the
    upload folder is outside the store. *)
Definition image_filename (req : request) : string :=
  match multidict_get "image" (files req) with
  | Some f => if allowed_file f then secure_filename f else "default.jpg"
  | None => "default.jpg"
  end.

Definition add_package (req : request) : M response :=
  login_required req (fun _ =>
    dests <- query destinations ;;
    match method req with
    | POST =>
        let filename := image_filename req in
        price <- float_of_field (multidict_get "price" (form req)) ;;
        capacity <- int_of_field (multidict_get "capacity" (form req)) ;;
        dest <- int_of_field (multidict_get "dest_id" (form req)) ;;
        insert_package
          (multidict_get "name" (form req)) (multidict_get "duration" (form req))
          price capacity dest filename ;;;
        ret (redirect "admin_dashboard")
    | GET => ret (render_add_package dests)
    end).

(** [Package.query.get_or_404(pkg_id)] *)
Definition get_or_404 (pkg_id : Z) : M Package.t :=
  found <- query (fun d => query_get Package.id pkg_id (packages d)) ;;
  match found with
  | Some p => ret p
  | None => raise NotFound
  end.

(** [int(request.form.get('travelers', 1))] *)
Definition travelers_field (req : request) : M Z :=
  match multidict_get "travelers" (form req) with
  | Some s => int_of_field (Some s)
  | None => ret 1
  end.

(** [utcnow] is the clock reading that [date_booked] defaults to. *)
Definition book_package (pkg_id : Z) (utcnow : Z) (req : request) : M response :=
  login_required req (fun u =>
    pkg <- get_or_404 pkg_id ;;
    num <- travelers_field req ;;
    total <- lift (float_mul_int (Package.price pkg) num) ;;
    insert_booking (User.id u) pkg_id num total utcnow ;;;
    flash "Booking request submitted!" "success" ;;;
    ret (redirect "my_bookings")).

Definition confirm_booking (id : Z) (req : request) : M response :=
  login_required req (fun _ =>
    booking <- query (fun d => query_get Booking.id id (bookings d)) ;;
    match booking with
    | Some b =>
        update_status (Booking.id b) "Confirmed" ;;;
        ret (redirect "admin_dashboard")
    | None => raise AttributeError
    end).

End Handlers.

(** ** Decimal literals

    [int()] and [float()] restricted to plain decimal literals: an optional
    sign, digits and, for [float()], an optional fraction.  On these
    strings they return what the builtins return; every other string is
    rejected here.  They instantiate the parameters of the handlers when a
    handler is run on a concrete request. *)

Definition digit_value (c : ascii) : option Z :=
  let n := nat_of_ascii c in
  if (Nat.leb 48 n && Nat.leb n 57)%bool then Some (Z.of_nat (n - 48)) else None.

Fixpoint digits_value (acc : Z) (s : string) : option Z :=
  match s with
  | EmptyString => Some acc
  | String c r =>
      match digit_value c with
      | Some v => digits_value (10 * acc + v) r
      | None => None
      end
  end.

(** The text after an optional sign, and whether the sign is a minus. *)
Definition split_sign (s : string) : bool * string :=
  match s with
  | String "-"%char r => (true, r)
  | String "+"%char r => (false, r)
  | _ => (false, s)
  end.

Definition decimal_int (s : string) : option Z :=
  let (neg, body) := split_sign s in
  match body with
  | EmptyString => None
  | _ => option_map (fun v => if neg then - v else v) (digits_value 0 body)
  end.

(** The integer part and the fraction of [digits] or [digits.digits]. *)
Fixpoint split_point (s : string) : string * option string :=
  match s with
  | EmptyString => (EmptyString, None)
  | String c r =>
      if Ascii.eqb c "."%char then (EmptyString, Some r)
      else let (i, f) := split_point r in (String c i, f)
  end.

(** The binary64 value nearest to [m / 10 ^ k], with the given sign. *)
Definition nearest_decimal (neg : bool) (m : Z) (k : nat) : float :=
  match m with
  | Zpos p =>
      SF2Prim (SFdiv prec emax (S754_finite neg p 0)
                 (S754_finite false (Z.to_pos (10 ^ Z.of_nat k)) 0))
  | _ => SF2Prim (S754_zero neg)
  end.

Definition decimal_float (s : string) : option float :=
  let (neg, body) := split_sign s in
  let (i, f) := split_point body in
  let frac := match f with Some t => t | None => EmptyString end in
  match i, frac with
  | EmptyString, EmptyString => None
  | _, _ =>
      option_map (fun m => nearest_decimal neg m (String.length frac))
        (digits_value 0 (i ++ frac)%string)
  end.

(** ** Schema constraints

    A store is well formed when keys are unique in every table and every
    foreign key names a row of the table it references. *)

Fixpoint distinct (keys : list Z) : bool :=
  match keys with
  | [] => true
  | k :: r => negb (existsb (Z.eqb k) r) && distinct r
  end.

Definition db_ok (d : database) : bool :=
  distinct (map User.id (users d))
  && distinct (map Destination.id (destinations d))
  && distinct (map Package.id (packages d))
  && distinct (map Booking.id (bookings d))
  && forallb (fun p => has_key Destination.id (Package.dest_id p) (destinations d))
       (packages d)
  && forallb (fun b => has_key Package.id (Booking.package_id b) (packages d)
                       && has_key User.id (Booking.user_id b) (users d))
       (bookings d).

(** ** Reference definitions for the reporting figures *)

(** The sum of a list of floats, from zero. *)
Definition float_sum (xs : list float) : float := fold_left PrimFloat.add xs PrimFloat.zero.

(** The sum of [total_price] over the confirmed bookings. *)
Definition confirmed_total (d : database) : float :=
  float_sum (map Booking.total_price (filter is_confirmed (bookings d))).

(** The number of bookings whose package belongs to destination [ds]. *)
Definition booking_count (d : database) (ds : Destination.t) : Z :=
  Z.of_nat (List.length
    (filter (fun b =>
       match query_get Package.id (Booking.package_id b) (packages d) with
       | Some p => Package.dest_id p =? Destination.id ds
       | None => false
       end) (bookings d))).

(** ** Sample data *)

Definition alice : User.t := User.mk 2 "alice" "scrypt:32768:8:1$salt$0123" "customer".
Definition root : User.t := User.mk 1 "admin" "scrypt:32768:8:1$salt$4567" "admin".
Definition goa : Destination.t :=
  Destination.mk 1 "Goa" "India" (Some "Beaches") (Some "Winter") true.
Definition goa_trip : Package.t :=
  Package.mk 1 "Goa Getaway" (Some "5 Days/4 Nights") 100%float 20 "default.jpg" 1.

Definition sample_db : database := mk_database [root; alice] [goa] [goa_trip] [].
Definition sample_world : world := mk_world sample_db [].

Definition post (fields : list (string * string)) (user : option Z) : request :=
  mk_request POST fields [] user.
Definition get (user : option Z) : request := mk_request GET [] [] user.

(** ** Expected outcomes

    The states that the properties below compare the handlers with. *)

(** A float is a zero when it compares equal to [0.0]. *)
Definition is_zero (x : float) : Prop := exists s, Prim2SF x = S754_zero s.

(** Two accumulators that are equal or are both zeros (of either sign). *)
Definition same_or_zeros (a b : float) : Prop := a = b \/ (is_zero a /\ is_zero b).

(** The row that a booking request adds to the store [d]. *)
Definition new_booking (d : database) (u : User.t) (pkg_id n : Z) (total : float)
    (utcnow : Z) : Booking.t :=
  Booking.mk (next_id (map Booking.id (bookings d))) (User.id u) pkg_id n total
    "Pending" utcnow.

(** The state after a booking request that added row [b]. *)
Definition booked (w : world) (b : Booking.t) : world :=
  mk_world (with_bookings (bookings (db w) ++ [b]) (db w))
    (flashes w ++ [("Booking request submitted!", "success")]).

(** The row that a package form adds to the store [d]. *)
Definition new_package (d : database) (name : string) (duration : option string)
    (price : float) (capacity dest : Z) (image : string) : Package.t :=
  Package.mk (next_id (map Package.id (packages d))) name duration price capacity
    image dest.


(** A store with one pending booking, made by alice. *)
Definition pending_db : database :=
  with_bookings [Booking.mk 1 2 1 2 200%float "Pending" 1000] sample_db.

(** The row that a destination form adds to the store [d]. *)
Definition new_destination (d : database) (name location : string)
    (description best_season : option string) : Destination.t :=
  Destination.mk (next_id (map Destination.id (destinations d))) name location
    description best_season true.

Definition with_new_destination (w : world) (ds : Destination.t) : world :=
  mk_world (with_destinations (destinations (db w) ++ [ds]) (db w)) (flashes w).

Definition with_new_package (w : world) (p : Package.t) : world :=
  mk_world (with_packages (packages (db w) ++ [p]) (db w)) (flashes w).

(** The state after the confirmation of booking [id]. *)
Definition confirmed (id : Z) (w : world) : world :=
  mk_world
    (with_bookings
       (map (fun b => if Booking.id b =? id then Booking.with_status "Confirmed" b else b)
          (bookings (db w))) (db w))
    (flashes w).

(** Two destinations: three bookings on Dest A, one on Dest B. *)
Definition popularity_db : database :=
  mk_database [root; alice]
    [Destination.mk 1 "Dest A" "North" None None true;
     Destination.mk 2 "Dest B" "South" None None true]
    [Package.mk 1 "Trip A" None 100%float 10 "default.jpg" 1;
     Package.mk 2 "Trip B" None 50%float 10 "default.jpg" 2]
    [Booking.mk 1 2 2 1 50%float "Pending" 1000;
     Booking.mk 2 2 1 1 100%float "Confirmed" 1001;
     Booking.mk 3 2 1 2 200%float "Pending" 1002;
     Booking.mk 4 2 1 1 100%float "Confirmed" 1003].

(** The sample store after the admin has posted a package for the
    destination id 99, which names no destination, and after alice has
    booked that package. *)
Definition orphan_package : Package.t :=
  Package.mk 2 "Nowhere" None 10%float 5 "default.jpg" 99.
Definition orphan_db : database := with_packages [goa_trip; orphan_package] sample_db.
Definition orphan_booked_db : database :=
  with_bookings [Booking.mk 1 2 2 1 10%float "Pending" 1000] orphan_db.

(** ** Relations between the store before and after a request *)

(** A computation moves the store along [R] whenever it returns. *)
Definition steps {A : Type} (R : database -> database -> Prop) (m : M A) : Prop :=
  forall w a w', m w = Ok (a, w') -> R (db w) (db w').

(** What the store keeps under every request: keys are unique in every
    table, and every booking names a package and an account of the store.
    (A package may name a destination that does not exist.) *)
Definition store_ok (d : database) : bool :=
  distinct (map User.id (users d))
  && distinct (map Destination.id (destinations d))
  && distinct (map Package.id (packages d))
  && distinct (map Booking.id (bookings d))
  && forallb (fun b => has_key Package.id (Booking.package_id b) (packages d)
                       && has_key User.id (Booking.user_id b) (users d))
       (bookings d).

Definition keeps_store_ok (d d' : database) : Prop :=
  store_ok d = true -> store_ok d' = true.

Definition id_and_price (b : Booking.t) : Z * float :=
  (Booking.id b, Booking.total_price b).

(** Every stored booking keeps its key and its total price, in place; new
    bookings come after the stored ones. *)
Definition keeps_prices (d d' : database) : Prop :=
  exists extra,
    map id_and_price (bookings d') = map id_and_price (bookings d) ++ extra.

(** ** Configuration

    The module-level code that picks the database URL. *)

(** [s.replace(old, new, 1)]: the first occurrence of [old] in [s] becomes
    [new]. *)
Fixpoint replace_first (old new s : string) : string :=
  if String.prefix old s then
    (new ++ substring (String.length old) (String.length s - String.length old) s)%string
  else
    match s with
    | EmptyString => EmptyString
    | String c r => String c (replace_first old new r)
    end.

(** [SQLALCHEMY_DATABASE_URI], from the value of [DATABASE_URL] in the
    environment, if any. *)
Definition database_uri (env : option string) : string :=
  let db_url := match env with Some s => s | None => "sqlite:///gurudatta_agency.db" end in
  if String.prefix "postgres://" db_url
  then replace_first "postgres://" "postgresql://" db_url
  else db_url.

(** ** Accounts and sessions

    [login], [register], [logout], [my_bookings] and the seeding of the
    admin account at startup.  These handlers answer with pages that the
    catalog handlers do not have, and [login] and [logout] change the
    session, so their result is a [reply]: the page and the account of
    the session after the request.  Werkzeug's [generate_password_hash] and
    [check_password_hash] are parameters; the salt that the former draws is
    an argument of the handler that calls it. *)

Inductive page : Type :=
| respond (r : response)
| render_login
| render_register
| render_customer_dash (bks : list Booking.t).

Record reply : Type := mk_reply {
  body : page;
  session : option Z
}.

(** The next request of a browser that holds the session [s]. *)
Definition with_session (s : option Z) (req : request) : request :=
  mk_request (method req) (form req) (files req) s.

Definition with_users (us : list User.t) (d : database) : database :=
  mk_database us (destinations d) (packages d) (bookings d).

Definition has_username (n : string) (us : list User.t) : bool :=
  existsb (fun u => String.eqb (User.username u) n) us.

(** [User.query.filter_by(username=name).first()]; a missing form field
    compares with NULL and finds nobody. *)
Definition filter_by_username (name : option string) (us : list User.t) : option User.t :=
  match name with
  | Some n => find (fun u => String.eqb (User.username u) n) us
  | None => None
  end.

(** [db.session.add(User(...))] and [commit()]: [username] is NOT NULL and
    unique. *)
Definition insert_user (username : option string) (password role : string) : M unit :=
  fun w =>
    match username with
    | Some n =>
        if has_username n (users (db w)) then Raise IntegrityError
        else
          commit (fun d =>
            with_users
              (users d ++ [User.mk (next_id (map User.id (users d))) n password role]) d) w
    | None => Raise IntegrityError
    end.

(** What a request leaves behind, for a computation of any result. *)
Definition exec {A : Type} (h : M A) (w : world) : result A * world :=
  match h w with
  | Ok (a, w') => (Ok a, w')
  | Raise e => (Raise e, w)
  end.

(** [@login_required] on a view that answers with a page. *)
Definition login_required_page (req : request) (view : User.t -> M page) : M page :=
  fun w =>
    match current_user req w with
    | Some u => view u w
    | None =>
        (flash "Please log in to access this page." "message" ;;;
         ret (respond (redirect "login"))) w
    end.

Definition my_bookings (req : request) : M page :=
  login_required_page req (fun u =>
    bks <- query (fun d => filter (fun b => Booking.user_id b =? User.id u) (bookings d)) ;;
    ret (render_customer_dash bks)).

Definition logout (req : request) : M reply :=
  ret (mk_reply (respond (redirect "index")) None).

Section Accounts.

Variable generate_password_hash : option string -> string -> result string.
Variable check_password_hash : string -> option string -> result bool.

Definition login (req : request) : M reply :=
  match method req with
  | POST =>
      user <- query (fun d =>
                filter_by_username (multidict_get "username" (form req)) (users d)) ;;
      accepted <- match user with
                  | Some u =>
                      lift (check_password_hash (User.password u)
                              (multidict_get "password" (form req)))
                  | None => ret false
                  end ;;
      match user, accepted with
      | Some u, true =>
          ret (mk_reply
                 (respond (redirect (if String.eqb (User.role u) "admin"
                                     then "admin_dashboard" else "index")))
                 (Some (User.id u)))
      | _, _ =>
          flash "Invalid Credentials" "danger" ;;;
          ret (mk_reply render_login (session_user_id req))
      end
  | GET => ret (mk_reply render_login (session_user_id req))
  end.

Definition register (salt : string) (req : request) : M reply :=
  match method req with
  | POST =>
      hashed_pw <- lift (generate_password_hash
                           (multidict_get "password" (form req)) salt) ;;
      insert_user (multidict_get "username" (form req)) hashed_pw "customer" ;;;
      ret (mk_reply (respond (redirect "login")) (session_user_id req))
  | GET => ret (mk_reply render_register (session_user_id req))
  end.

(** The startup block: an account named admin is added unless one exists. *)
Definition seed_admin (salt : string) : M unit :=
  user <- query (fun d => filter_by_username (Some "admin") (users d)) ;;
  match user with
  | Some _ => ret tt
  | None =>
      hashed_pw <- lift (generate_password_hash (Some "admin123") salt) ;;
      insert_user (Some "admin") hashed_pw "admin"
  end.

End Accounts.

(** The account that the store [d] adds for a name, a password hash and a
    role. *)
Definition new_account (d : database) (n h role : string) : User.t :=
  User.mk (next_id (map User.id (users d))) n h role.

(** Usernames are unique in the user table. *)
Fixpoint usernames_distinct (us : list User.t) : bool :=
  match us with
  | [] => true
  | u :: r => negb (has_username (User.username u) r) && usernames_distinct r
  end.

(** The parent destination of a package is active. *)
Definition parent_active (d : database) (p : Package.t) : bool :=
  match query_get Destination.id (Package.dest_id p) (destinations d) with
  | Some ds => Destination.is_active ds
  | None => false
  end.

(** A hash function for concrete runs: the salt, a dollar sign and the
    password; a missing password raises as [None.encode()] does. *)
Definition toy_hash (password : option string) (salt : string) : result string :=
  match password with
  | Some p => Ok (salt ++ "$" ++ p)%string
  | None => Raise AttributeError
  end.

(** The text after the last dollar sign, if there is one. *)
Fixpoint after_last_dollar (s : string) : option string :=
  match s with
  | EmptyString => None
  | String c r =>
      match after_last_dollar r with
      | Some e => Some e
      | None => if Ascii.eqb c "$"%char then Some r else None
      end
  end.

Definition toy_check (pwhash : string) (password : option string) : result bool :=
  match password with
  | Some p =>
      Ok (match after_last_dollar pwhash with
          | Some e => String.eqb e p
          | None => false
          end)
  | None => Raise AttributeError
  end.

(** * Properties *)

(** ** Binary64 facts used by the handlers *)

Lemma digits2_pos_shift52 (m : positive) :
  Zpos (digits2_pos (4503599627370496 * m)) = Zpos (digits2_pos m) + 52.
Proof. cbn [Pos.mul digits2_pos]. lia. Qed.

Lemma shr_fexp_times_one (m : positive) (e : Z) :
  canonical_mantissa prec emax m e = true ->
  shr_fexp prec emax (Zpos (4503599627370496 * m)) (e + -52) loc_Exact
  = ({| shr_m := Zpos m; shr_r := false; shr_s := false |}, e).
Proof.
  unfold canonical_mantissa. intros Hc%Z.eqb_eq.
  unfold shr_fexp, Zdigits2. rewrite digits2_pos_shift52.
  replace (fexp prec emax (Z.pos (digits2_pos m) + 52 + (e + -52)) - (e + -52)) with 52.
  2:{ replace (Z.pos (digits2_pos m) + 52 + (e + -52))
        with (Z.pos (digits2_pos m) + e) by lia.
      rewrite Hc. lia. }
  cbn [shr shr_record_of_loc iter_pos shr_1 Pos.mul orb].
  f_equal. lia.
Qed.

Lemma shr_fexp_canonical (m : positive) (e : Z) :
  canonical_mantissa prec emax m e = true ->
  shr_fexp prec emax (Zpos m) e loc_Exact
  = ({| shr_m := Zpos m; shr_r := false; shr_s := false |}, e).
Proof.
  unfold canonical_mantissa. intros Hc%Z.eqb_eq.
  unfold shr_fexp, Zdigits2. rewrite Hc, Z.sub_diag. reflexivity.
Qed.

Lemma SFmul_one_r (x : spec_float) :
  valid_binary x = true -> SF64mul x (Prim2SF 1%float) = x.
Proof.
  change (Prim2SF 1%float) with (S754_finite false 4503599627370496 (-52)).
  destruct x as [s|s| |s m e]; cbn [valid_binary SF64mul SFmul]; intros Hv.
  - now rewrite xorb_false_r.
  - now rewrite xorb_false_r.
  - reflexivity.
  - unfold bounded in Hv. apply andb_true_iff in Hv as [Hc He].
    rewrite xorb_false_r, Pos.mul_comm.
    unfold binary_round_aux.
    rewrite (shr_fexp_times_one m e Hc).
    cbn [shr_m loc_of_shr_record round_nearest_even].
    rewrite (shr_fexp_canonical m e Hc). cbn [shr_m].
    now rewrite He.
Qed.

(** Multiplying a float by [1.0] returns it unchanged, NaN and the
    infinities included. *)
Lemma float_mul_one_r (x : float) : PrimFloat.mul x 1%float = x.
Proof.
  apply Prim2SF_inj. rewrite mul_spec. apply SFmul_one_r, Prim2SF_valid.
Qed.

Lemma float_of_int_one : float_of_int 1 = Some 1%float.
Proof. reflexivity. Qed.

Lemma float_mul_int_one (x : float) : float_mul_int x 1 = Ok x.
Proof.
  unfold float_mul_int. rewrite float_of_int_one. now rewrite float_mul_one_r.
Qed.

Lemma digits2_pos_size (p : positive) : digits2_pos p = Pos.size p.
Proof. induction p; cbn; congruence. Qed.

Lemma digits2_pos_bound (p : positive) (k : Z) :
  0 <= k -> Zpos p < 2 ^ k -> Zpos (digits2_pos p) <= k.
Proof.
  intros Hk Hp. rewrite digits2_pos_size.
  pose proof (Pos.size_le p) as H.
  assert (H' : 2 ^ Zpos (Pos.size p) <= 2 * Zpos p).
  { rewrite <- Pos2Z.inj_pow. change (2 * Z.pos p) with (Zpos p~0). now apply Pos2Z.pos_le_pos. }
  assert (2 ^ Zpos (Pos.size p) < 2 ^ (k + 1)).
  { rewrite Z.pow_add_r by lia. lia. }
  apply Z.pow_lt_mono_r_iff in H0; lia.
Qed.

Lemma digits2_pos_ge (p : positive) : 2 ^ (Zpos (digits2_pos p) - 1) <= Zpos p.
Proof.
  rewrite digits2_pos_size.
  induction p; cbn [Pos.size].
  - rewrite Pos2Z.inj_succ. replace (Z.succ (Z.pos (Pos.size p)) - 1) with (Z.pos (Pos.size p) - 1 + 1) by lia.
    rewrite Z.pow_add_r by lia. lia.
  - rewrite Pos2Z.inj_succ. replace (Z.succ (Z.pos (Pos.size p)) - 1) with (Z.pos (Pos.size p) - 1 + 1) by lia.
    rewrite Z.pow_add_r by lia. lia.
  - cbn. lia.
Qed.

Lemma iter_pos_inv {A : Type} (P : A -> Prop) (f : A -> A) :
  (forall x, P x -> P (f x)) -> forall n x, P x -> P (iter_pos f n x).
Proof. intros Hf n. induction n; intros x Hx; cbn; auto. Qed.

Lemma shr_1_le (M : Z) (r : shr_record) :
  0 <= shr_m r <= M -> 0 <= shr_m (shr_1 r) <= M.
Proof.
  destruct r as [m a b]. cbn. destruct m as [| [p | p |] | p]; cbn; lia.
Qed.

Lemma shr_fexp_le (m e : Z) :
  0 <= m ->
  let '(r, e') := shr_fexp prec emax m e loc_Exact in
  0 <= shr_m r <= m /\ (e' = e \/ e' = fexp prec emax (Zdigits2 m + e)).
Proof.
  intros Hm. unfold shr_fexp, shr.
  destruct (fexp prec emax (Zdigits2 m + e) - e) as [| n | n] eqn:E.
  - cbn. split; [lia | now left].
  - split.
    + apply iter_pos_inv; [apply shr_1_le | cbn; lia].
    + right. lia.
  - cbn. split; [lia | now left].
Qed.

Lemma Zdigits2_bound (m k : Z) : 0 <= k -> 0 <= m < 2 ^ k -> Zdigits2 m <= k.
Proof.
  intros Hk Hm. destruct m as [| p | p]; cbn; [lia | | lia].
  apply digits2_pos_bound; lia.
Qed.

Lemma round_nearest_even_le (m : Z) (l : location) :
  m <= round_nearest_even m l <= m + 1.
Proof. destruct l as [| []]; cbn; try lia. destruct (Z.even m); lia. Qed.

(** Rounding a mantissa below 2^64 at an exponent of at most 11 does not
    overflow. *)
Lemma binary_round_aux_finite (s : bool) (m : positive) (e : Z) :
  Zpos m < 2 ^ 64 -> Zpos (digits2_pos m) + e <= 64 -> e <= 11 ->
  forall t, binary_round_aux prec emax s (Zpos m) e loc_Exact <> S754_infinity t.
Proof.
  intros Hm Hd He t. unfold binary_round_aux.
  pose proof (shr_fexp_le (Zpos m) e ltac:(lia)) as H1.
  destruct (shr_fexp prec emax (Z.pos m) e loc_Exact) as [r1 e1].
  destruct H1 as [Hr1 He1].
  assert (He1' : e1 <= 11).
  { destruct He1 as [-> | ->]; [lia |]. unfold fexp, emin, prec, emax. cbn [Zdigits2]. lia. }
  pose proof (round_nearest_even_le (shr_m r1) (loc_of_shr_record r1)) as Hrn.
  set (m2 := round_nearest_even (shr_m r1) (loc_of_shr_record r1)) in *.
  pose proof (shr_fexp_le m2 e1 ltac:(lia)) as H2.
  destruct (shr_fexp prec emax m2 e1 loc_Exact) as [r2 e2].
  destruct H2 as [Hr2 He2].
  destruct (shr_m r2) as [| p | p]; [discriminate | | discriminate].
  assert (e2 <= emax - prec); [| apply Z.leb_le in H; rewrite H; discriminate].
  destruct He2 as [-> | ->]; [unfold emax, prec; lia |].
  assert (Zdigits2 m2 <= 65) by (apply Zdigits2_bound; lia).
  unfold fexp, emin, prec, emax. lia.
Qed.

Lemma digits2_pos_iter_xO (m k : positive) :
  Zpos (digits2_pos (Pos.iter xO m k)) = Zpos (digits2_pos m) + Zpos k.
Proof.
  induction k using Pos.peano_ind.
  - cbn. lia.
  - rewrite Pos.iter_succ. cbn [digits2_pos]. lia.
Qed.

(** Every value of an INTEGER column converts to a float. *)
Lemma float_of_int_in_range (n : Z) :
  sqlite_integer n = true -> exists f, float_of_int n = Some f.
Proof.
  unfold sqlite_integer. intros [Hlo Hhi]%andb_true_iff.
  apply Z.leb_le in Hlo. apply Z.ltb_lt in Hhi.
  unfold float_of_int.
  assert (H : forall t, binary_normalize prec emax n 0 false <> S754_infinity t).
  { unfold binary_normalize.
    assert (Hpos : forall s m, Zpos m <= 2 ^ 63 ->
              forall t, binary_round prec emax s m 0 <> S754_infinity t).
    { intros s m Hm t. unfold binary_round, shl_align.
      assert (Hdm : Zpos (digits2_pos m) <= 64) by (apply digits2_pos_bound; lia).
      pose proof (digits2_pos_ge m) as Hge.
      destruct (fexp prec emax (Z.pos (digits2_pos m) + 0) - 0) as [| d | d] eqn:E.
      - apply binary_round_aux_finite; lia.
      - apply binary_round_aux_finite; lia.
      - assert (Hd : Zpos d = 53 - Zpos (digits2_pos m)).
        { revert E. unfold fexp, emin, prec, emax. lia. }
        assert (Hdig := digits2_pos_iter_xO m d).
        apply binary_round_aux_finite.
        + assert (Zpos (Pos.iter xO m d) < 2 ^ 53); [| lia].
          destruct (Z.lt_ge_cases (Zpos (Pos.iter xO m d)) (2 ^ 53)) as [|Hc]; [assumption |].
          pose proof (digits2_pos_ge (Pos.iter xO m d)) as Hg2.
          exfalso. 
          assert (Zpos (digits2_pos (Pos.iter xO m d)) = 53) by lia.
          pose proof (Pos.size_gt (Pos.iter xO m d)) as Hgt.
          rewrite <- digits2_pos_size in Hgt.
          apply Pos2Z.pos_lt_pos in Hgt. rewrite Pos2Z.inj_pow in Hgt.
          rewrite H in Hgt. lia.
        + revert E. unfold fexp, emin, prec, emax. lia.
        + revert E. unfold fexp, emin, prec, emax. lia. }
    destruct n as [| m | m]; [discriminate | apply Hpos; lia | apply Hpos; lia]. }
  destruct (binary_normalize prec emax n 0 false) as [s | s | | s m e]; eauto.
  exfalso. exact (H s eq_refl).
Qed.

Lemma eqb_zero_is_zero (x : float) : PrimFloat.eqb x PrimFloat.zero = true <-> is_zero x.
Proof.
  rewrite eqb_spec. change (Prim2SF PrimFloat.zero) with (S754_zero false).
  unfold is_zero. destruct (Prim2SF x) as [s|s| |s m e]; cbn.
  - split; [eauto | reflexivity].
  - split; [destruct s; discriminate | intros [? ?]; discriminate].
  - split; [discriminate | intros [? ?]; discriminate].
  - split; [destruct s; discriminate | intros [? ?]; discriminate].
Qed.

Lemma add_zeros (a y : float) : is_zero a -> is_zero y -> is_zero (PrimFloat.add a y).
Proof.
  intros [s Ha] [t Hy]. unfold is_zero. rewrite add_spec, Ha, Hy.
  destruct s, t; cbn; eauto.
Qed.

Lemma add_zero_l (a y : float) : is_zero a -> ~ is_zero y -> PrimFloat.add a y = y.
Proof.
  intros [s Ha] Hy. apply Prim2SF_inj. rewrite add_spec, Ha.
  unfold is_zero in Hy. destruct (Prim2SF y) as [t|t| |t m e]; cbn; try reflexivity.
  exfalso. eauto.
Qed.

Lemma is_zero_dec (x : float) : is_zero x \/ ~ is_zero x.
Proof.
  destruct (PrimFloat.eqb x PrimFloat.zero) eqn:E.
  - left. now apply eqb_zero_is_zero.
  - right. intros H%eqb_zero_is_zero. congruence.
Qed.

Lemma same_or_zeros_add (a b y : float) :
  same_or_zeros a b -> same_or_zeros (PrimFloat.add a y) (PrimFloat.add b y).
Proof.
  intros [-> | [Ha Hb]]; [now left |].
  destruct (is_zero_dec y) as [Hy | Hy].
  - right. split; now apply add_zeros.
  - left. now rewrite !add_zero_l.
Qed.

Lemma same_or_zeros_fold (xs : list float) (a b : float) :
  same_or_zeros a b ->
  same_or_zeros (fold_left PrimFloat.add xs a) (fold_left PrimFloat.add xs b).
Proof.
  revert a b. induction xs as [| x xs IH]; intros a b H; cbn; [exact H |].
  apply IH, same_or_zeros_add, H.
Qed.

Lemma same_or_zeros_start (x : float) : same_or_zeros x (PrimFloat.add PrimFloat.zero x).
Proof.
  assert (Hz : is_zero PrimFloat.zero) by (exists false; reflexivity).
  destruct (is_zero_dec x) as [Hx | Hx].
  - right. split; [exact Hx | now apply add_zeros].
  - left. now rewrite add_zero_l.
Qed.

Lemma float_bool_same_or_zeros (a b : float) :
  same_or_zeros a b ->
  (if float_bool a then Float a else Int 0) = (if float_bool b then Float b else Int 0).
Proof.
  intros [-> | [Ha Hb]]; [reflexivity |].
  unfold float_bool.
  apply eqb_zero_is_zero in Ha, Hb. now rewrite Ha, Hb.
Qed.

(** The value that SQL's [SUM] returns over a non-empty column, then
    [or 0], is the plain sum from zero, with a zero sum turned into the
    integer [0]. *)
Lemma sql_sum_or_zero (x : float) (xs : list float) :
  (if float_bool (fold_left PrimFloat.add xs x) then Float (fold_left PrimFloat.add xs x)
   else Int 0)
  = (if float_bool (float_sum (x :: xs)) then Float (float_sum (x :: xs)) else Int 0).
Proof.
  apply float_bool_same_or_zeros. unfold float_sum. cbn [fold_left].
  apply same_or_zeros_fold, same_or_zeros_start.
Qed.

(** ** Reporting: revenue *)

(** C4: the revenue figure of the dashboard is the sum of [total_price]
    over exactly the confirmed bookings (a sum that is zero shows as the
    integer 0), and it is the integer 0, not a null, when no booking is
    confirmed. *)
Theorem revenue_is_confirmed_total (d : database) :
  revenue d = (if float_bool (confirmed_total d) then Float (confirmed_total d) else Int 0)
  /\ (filter is_confirmed (bookings d) = [] -> revenue d = Int 0)
  /\ (forall req w u,
        db w = d -> current_user req w = Some u -> User.role u = "admin" ->
        run (admin_dashboard req) w
        = (Ok (render_dashboard (revenue d) (Z.of_nat (List.length (bookings d)))
                 (popular_dest d) (order_by_desc Booking.date_booked (bookings d))),
           w)).
Proof.
  split; [| split].
  - unfold revenue, confirmed_total.
    destruct (map Booking.total_price (filter is_confirmed (bookings d))) as [| x xs].
    + reflexivity.
    + cbn [sql_sum]. apply sql_sum_or_zero.
  - intros H. unfold revenue. now rewrite H.
  - intros req w u <- Hu Hr.
    unfold run, admin_dashboard, login_required. rewrite Hu, Hr. reflexivity.
Qed.

(** ** Lookups and joins *)

Lemma query_get_Some {A : Type} (key : A -> Z) (i : Z) (rows : list A) (r : A) :
  query_get key i rows = Some r -> In r rows /\ key r = i.
Proof.
  unfold query_get. intros H. apply find_some in H as [Hin Hk].
  split; [exact Hin | now apply Z.eqb_eq].
Qed.

Lemma query_get_None {A : Type} (key : A -> Z) (i : Z) (rows : list A) :
  query_get key i rows = None -> forall r, In r rows -> key r <> i.
Proof.
  unfold query_get. intros H r Hin Hk.
  pose proof (find_none _ _ H r Hin) as Hf. cbn in Hf.
  apply Z.eqb_neq in Hf. contradiction.
Qed.

Lemma has_key_query_get {A : Type} (key : A -> Z) (i : Z) (rows : list A) (r : A) :
  query_get key i rows = Some r -> has_key key i rows = true.
Proof.
  intros H. apply query_get_Some in H as [Hin Hk].
  unfold has_key. apply existsb_exists. exists r. split; [exact Hin | now apply Z.eqb_eq].
Qed.

Lemma distinct_NoDup (keys : list Z) : distinct keys = true -> NoDup keys.
Proof.
  induction keys as [| k r IH]; cbn; intros H; [constructor |].
  apply andb_true_iff in H as [Hk Hr]. constructor; [| now apply IH].
  intros Hin. apply negb_true_iff in Hk.
  assert (existsb (Z.eqb k) r = true) as E; [| congruence].
  apply existsb_exists. exists k. split; [exact Hin | apply Z.eqb_refl].
Qed.

(** With unique keys, a row is the one that its key finds. *)
Lemma query_get_In {A : Type} (key : A -> Z) (rows : list A) (r : A) :
  distinct (map key rows) = true -> In r rows -> query_get key (key r) rows = Some r.
Proof.
  unfold query_get. induction rows as [| x rows IH]; cbn; intros Hd Hin; [contradiction |].
  apply andb_true_iff in Hd as [Hx Hd]. apply negb_true_iff in Hx.
  destruct Hin as [-> | Hin].
  - now rewrite Z.eqb_refl.
  - destruct (key x =? key r) eqn:E; [| now apply IH].
    exfalso. apply Z.eqb_eq in E.
    assert (existsb (Z.eqb (key x)) (map key rows) = true) as Hex; [| congruence].
    apply existsb_exists. exists (key r). split; [now apply in_map | now apply Z.eqb_eq].
Qed.

Lemma in_inner_join {A B : Type} (on : A -> B -> bool) (l : list A) (r : list B)
    (a : A) (b : B) :
  In (a, b) (inner_join on l r) <-> In a l /\ In b r /\ on a b = true.
Proof.
  unfold inner_join. rewrite in_flat_map. split.
  - intros [a' [Ha H]]. apply in_map_iff in H as [b' [E Hb]].
    inversion E; subst. apply filter_In in Hb as [Hb Hon]. auto.
  - intros [Ha [Hb Hon]]. exists a. split; [exact Ha |].
    apply in_map, filter_In. auto.
Qed.

(** ** Catalog: the public listing *)

(** C6: the public index lists exactly the packages whose parent
    destination is active; a package whose destination is inactive is
    left out. *)
Theorem index_lists_active_packages (req : request) (w : world) :
  run (index req) w = (Ok (render_index (active_packages (db w))), w)
  /\ (forall p, In p (active_packages (db w)) <->
        In p (packages (db w))
        /\ exists ds, In ds (destinations (db w))
                      /\ Destination.id ds = Package.dest_id p
                      /\ Destination.is_active ds = true)
  /\ (forall p ds,
        distinct (map Destination.id (destinations (db w))) = true ->
        query_get Destination.id (Package.dest_id p) (destinations (db w)) = Some ds ->
        Destination.is_active ds = false ->
        ~ In p (active_packages (db w))).
Proof.
  assert (Hchar : forall p, In p (active_packages (db w)) <->
        In p (packages (db w))
        /\ exists ds, In ds (destinations (db w))
                      /\ Destination.id ds = Package.dest_id p
                      /\ Destination.is_active ds = true).
  { intros p. unfold active_packages. rewrite in_map_iff. split.
    - intros [[p' ds] [E H]]. cbn in E. subst p'.
      apply filter_In in H as [H Hact]. apply in_inner_join in H as [Hp [Hd Hon]].
      split; [exact Hp |]. exists ds. cbn in Hact. apply Z.eqb_eq in Hon. auto.
    - intros [Hp [ds [Hd [Hid Hact]]]]. exists (p, ds). split; [reflexivity |].
      apply filter_In. split; [| exact Hact].
      apply in_inner_join. repeat split; auto. now apply Z.eqb_eq. }
  split; [reflexivity | split; [exact Hchar |]].
  intros p ds Hdist Hget Hact Hin.
  apply Hchar in Hin as [_ [ds' [Hd' [Hid' Hact']]]].
  rewrite <- Hid' in Hget. rewrite (query_get_In _ _ _ Hdist Hd') in Hget.
  congruence.
Qed.

(** ** Booking: confirmation *)

Lemma set_status_twice (i : Z) (s : string) (bs : list Booking.t) :
  map (fun b => if Booking.id b =? i then Booking.with_status s b else b)
    (map (fun b => if Booking.id b =? i then Booking.with_status s b else b) bs)
  = map (fun b => if Booking.id b =? i then Booking.with_status s b else b) bs.
Proof.
  rewrite map_map. apply map_ext. intros b.
  destruct (Booking.id b =? i) eqn:E; cbn; now rewrite E.
Qed.

Lemma query_get_set_status (i : Z) (s : string) (bs : list Booking.t) :
  query_get Booking.id i
    (map (fun b => if Booking.id b =? i then Booking.with_status s b else b) bs)
  = option_map (Booking.with_status s) (query_get Booking.id i bs).
Proof.
  unfold query_get. induction bs as [| b bs IH]; cbn; [reflexivity |].
  destruct (Booking.id b =? i) eqn:E; cbn; rewrite E; [reflexivity | exact IH].
Qed.

Section Confirmation.

Variables (id : Z) (req : request) (w : world) (u : User.t).
Hypothesis authenticated : current_user req w = Some u.

Lemma confirm_booking_run (b : Booking.t) :
  query_get Booking.id id (bookings (db w)) = Some b ->
  run (confirm_booking id req) w = (Ok (redirect "admin_dashboard"), confirmed id w).
Proof.
  intros Hb. pose proof (query_get_Some _ _ _ _ Hb) as [_ Hid].
  unfold run, confirm_booking, login_required. rewrite authenticated.
  unfold bind, query. rewrite Hb. cbn. now rewrite Hid.
Qed.

(** C9: confirming an existing booking sets its status to 'Confirmed', and
    a second confirmation leaves the state of the first, also when the
    booking was confirmed before. *)
Theorem confirm_booking_idempotent (b : Booking.t) :
  query_get Booking.id id (bookings (db w)) = Some b ->
  run (confirm_booking id req) w = (Ok (redirect "admin_dashboard"), confirmed id w)
  /\ query_get Booking.id id (bookings (db (confirmed id w)))
     = Some (Booking.with_status "Confirmed" b)
  /\ run (confirm_booking id req) (confirmed id w)
     = (Ok (redirect "admin_dashboard"), confirmed id w).
Proof.
  intros Hb.
  assert (Hget : query_get Booking.id id (bookings (db (confirmed id w)))
                 = Some (Booking.with_status "Confirmed" b)).
  { unfold confirmed. cbn [db bookings with_bookings].
    now rewrite query_get_set_status, Hb. }
  split; [now apply confirm_booking_run with b | split; [exact Hget |]].
  pose proof (query_get_Some _ _ _ _ Hget) as [_ Hid].
  unfold run, confirm_booking, login_required.
  replace (current_user req (confirmed id w)) with (Some u)
    by (rewrite <- authenticated; reflexivity).
  unfold bind, query. rewrite Hget. cbn -[Booking.with_status].
  rewrite Hid, set_status_twice. reflexivity.
Qed.

(** C2: the confirmation of a booking id that names no booking, by an
    authenticated account, escapes with [AttributeError] (the handler
    assigns to the [status] of [None]); no stored booking changes. *)
Theorem confirm_booking_missing_raises :
  query_get Booking.id id (bookings (db w)) = None ->
  run (confirm_booking id req) w = (Raise AttributeError, w).
Proof.
  intros Hb. unfold run, confirm_booking, login_required. rewrite authenticated.
  unfold bind, query. now rewrite Hb.
Qed.

End Confirmation.

(** ** Booking: creation *)

Lemma next_id_above (keys : list Z) (k : Z) : In k keys -> k < next_id keys.
Proof.
  unfold next_id. induction keys as [| x r IH]; cbn [In fold_right]; [contradiction |].
  intros [-> | H]; [lia | specialize (IH H); lia].
Qed.

Lemma next_id_fresh (keys : list Z) : ~ In (next_id keys) keys.
Proof. intros H. apply next_id_above in H. lia. Qed.

Section Booking_requests.

Variable py_int : string -> option Z.
Variables (pkg_id utcnow : Z) (req : request) (w : world) (u : User.t).
Hypothesis authenticated : current_user req w = Some u.

Lemma book_package_run (p : Package.t) (n : Z) :
  query_get Package.id pkg_id (packages (db w)) = Some p ->
  travelers_field py_int req w = Ok (n, w) ->
  run (book_package py_int pkg_id utcnow req) w
  = match float_of_int n with
    | Some f =>
        if sqlite_integer n then
          (Ok (redirect "my_bookings"),
           booked w (new_booking (db w) u pkg_id n (PrimFloat.mul (Package.price p) f)
                       utcnow))
        else (Raise OverflowError, w)
    | None => (Raise OverflowError, w)
    end.
Proof.
  intros Hp Hn.
  unfold run, book_package, login_required. rewrite authenticated.
  unfold bind at 1. unfold get_or_404, bind at 1, query. rewrite Hp. cbn [ret].
  unfold bind at 1. rewrite Hn.
  unfold bind at 1, lift, float_mul_int.
  destruct (float_of_int n) as [f |]; [| reflexivity].
  unfold bind at 1, insert_booking.
  destruct (sqlite_integer n); reflexivity.
Qed.

(** A count outside the INTEGER range books nothing: the request stops with
    [OverflowError], at the product when the count has no float and at the
    commit otherwise. *)
Lemma book_package_out_of_range (p : Package.t) (n : Z) :
  query_get Package.id pkg_id (packages (db w)) = Some p ->
  travelers_field py_int req w = Ok (n, w) ->
  sqlite_integer n = false ->
  run (book_package py_int pkg_id utcnow req) w = (Raise OverflowError, w).
Proof.
  intros Hp Hn Hr. rewrite (book_package_run p n Hp Hn), Hr.
  now destruct (float_of_int n).
Qed.


(** C10: without a [travelers] field the count is 1, and the booking has
    [travelers = 1] and the package price as its total.  A submitted
    integer is the count as it is, and its sign is never looked at: every
    count that the INTEGER column of the store holds, positive or not, is
    booked (with the product as total, when the product is a number), and a
    count outside that range stops the request with [OverflowError] when
    the product is taken or the booking is committed. *)
Theorem book_package_travelers_default (p : Package.t) :
  query_get Package.id pkg_id (packages (db w)) = Some p ->
  (multidict_get "travelers" (form req) = None ->
   run (book_package py_int pkg_id utcnow req) w
   = (Ok (redirect "my_bookings"),
      booked w (new_booking (db w) u pkg_id 1 (Package.price p) utcnow)))
  /\ (forall s n,
        multidict_get "travelers" (form req) = Some s ->
        py_int s = Some n ->
        travelers_field py_int req w = Ok (n, w)
        /\ (sqlite_integer n = true ->
            exists f,
              float_of_int n = Some f
              /\ (PrimFloat.is_nan (PrimFloat.mul (Package.price p) f) = false ->
                  run (book_package py_int pkg_id utcnow req) w
                  = (Ok (redirect "my_bookings"),
                     booked w (new_booking (db w) u pkg_id n
                                 (PrimFloat.mul (Package.price p) f) utcnow))))
        /\ (sqlite_integer n = false ->
            run (book_package py_int pkg_id utcnow req) w = (Raise OverflowError, w))).
Proof.
  intros Hp. split.
  - intros Hnone.
    rewrite (book_package_run p 1 Hp).
    + rewrite float_of_int_one, float_mul_one_r. reflexivity.
    + unfold travelers_field. now rewrite Hnone.
  - intros s n Hs Hn.
    assert (Ht : travelers_field py_int req w = Ok (n, w)).
    { unfold travelers_field, int_of_field. now rewrite Hs, Hn. }
    split; [exact Ht | split].
    + intros Hr. destruct (float_of_int_in_range n Hr) as [f Hf]. exists f.
      split; [exact Hf |]. intros _.
      rewrite (book_package_run p n Hp Ht), Hf, Hr. reflexivity.
    + intros Hr. now apply book_package_out_of_range with p n.
Qed.

End Booking_requests.

(** ** Catalog: creation of destinations and packages *)

Section Catalog_requests.

Variable py_int : string -> option Z.
Variable py_float : string -> option float.
Variable secure_filename : string -> string.
Variables (req : request) (w : world) (u : User.t).
Hypothesis authenticated : current_user req w = Some u.
Hypothesis posted : method req = POST.

Lemma add_destination_run (n l : string) :
  multidict_get "name" (form req) = Some n ->
  multidict_get "location" (form req) = Some l ->
  run (add_destination req) w
  = (Ok (redirect "admin_dashboard"),
     with_new_destination w
       (new_destination (db w) n l (multidict_get "description" (form req))
          (multidict_get "best_season" (form req)))).
Proof.
  intros Hn Hl. unfold run, add_destination, login_required.
  rewrite authenticated, posted. unfold bind, insert_destination.
  now rewrite Hn, Hl.
Qed.

(** What a package form whose three numbers parse comes to. *)
Lemma add_package_outcome (s t r : string) (x : float) (c k : Z) :
  multidict_get "price" (form req) = Some s -> py_float s = Some x ->
  multidict_get "capacity" (form req) = Some t -> py_int t = Some c ->
  multidict_get "dest_id" (form req) = Some r -> py_int r = Some k ->
  run (add_package py_int py_float secure_filename req) w
  = if sqlite_integer c && sqlite_integer k then
      match multidict_get "name" (form req) with
      | Some n =>
          if PrimFloat.is_nan x then (Raise IntegrityError, w)
          else
            (Ok (redirect "admin_dashboard"),
             with_new_package w
               (new_package (db w) n (multidict_get "duration" (form req)) x c k
                  (image_filename secure_filename req)))
      | None => (Raise IntegrityError, w)
      end
    else (Raise OverflowError, w).
Proof.
  intros Hs Hx Ht Hc Hr Hk.
  unfold run, add_package, login_required. rewrite authenticated, posted.
  unfold bind at 1, query. unfold bind at 1, float_of_field. rewrite Hs, Hx. cbn [ret].
  unfold bind at 1, int_of_field. rewrite Ht, Hc. cbn [ret].
  unfold bind at 1. rewrite Hr, Hk. cbn [ret].
  unfold bind at 1, insert_package.
  destruct (sqlite_integer c && sqlite_integer k); [| reflexivity].
  destruct (multidict_get "name" (form req)); [| reflexivity].
  destruct (PrimFloat.is_nan x); reflexivity.
Qed.

Lemma add_package_run (s t r n : string) (x : float) (c k : Z) :
  multidict_get "price" (form req) = Some s -> py_float s = Some x ->
  multidict_get "capacity" (form req) = Some t -> py_int t = Some c ->
  multidict_get "dest_id" (form req) = Some r -> py_int r = Some k ->
  sqlite_integer c = true -> sqlite_integer k = true ->
  PrimFloat.is_nan x = false ->
  multidict_get "name" (form req) = Some n ->
  run (add_package py_int py_float secure_filename req) w
  = (Ok (redirect "admin_dashboard"),
     with_new_package w
       (new_package (db w) n (multidict_get "duration" (form req)) x c k
          (image_filename secure_filename req))).
Proof.
  intros Hs Hx Ht Hc Hr Hk Hrc Hrk Hnan Hn.
  now rewrite (add_package_outcome s t r x c k Hs Hx Ht Hc Hr Hk), Hrc, Hrk, Hn, Hnan.
Qed.

(** C7 (as amended): a package form is checked by parsing only.  A price
    that [float()] rejects, or a capacity that [int()] rejects, stops the
    request with [ValueError] and no package is stored.  There is no check
    of the sign: a price and a capacity that parse are stored as they are,
    positive or not, when the form names the package, the capacity and the
    destination id are values of an INTEGER column and the price is not a
    NaN.  A capacity or destination id outside the INTEGER range stops the
    request with [OverflowError], a NaN price with [IntegrityError], and no
    package is stored. *)
Theorem add_package_checks_parsing_only :
  (forall s, multidict_get "price" (form req) = Some s -> py_float s = None ->
     run (add_package py_int py_float secure_filename req) w = (Raise ValueError, w))
  /\ (forall s x t,
        multidict_get "price" (form req) = Some s -> py_float s = Some x ->
        multidict_get "capacity" (form req) = Some t -> py_int t = None ->
        run (add_package py_int py_float secure_filename req) w = (Raise ValueError, w))
  /\ (forall s x t c r k,
        multidict_get "price" (form req) = Some s -> py_float s = Some x ->
        multidict_get "capacity" (form req) = Some t -> py_int t = Some c ->
        multidict_get "dest_id" (form req) = Some r -> py_int r = Some k ->
        (forall n,
           sqlite_integer c = true -> sqlite_integer k = true ->
           PrimFloat.is_nan x = false ->
           multidict_get "name" (form req) = Some n ->
           let p := new_package (db w) n (multidict_get "duration" (form req)) x c k
                      (image_filename secure_filename req) in
           run (add_package py_int py_float secure_filename req) w
           = (Ok (redirect "admin_dashboard"), with_new_package w p)
           /\ Package.price p = x /\ Package.max_capacity p = c)
        /\ (sqlite_integer c = false \/ sqlite_integer k = false ->
            run (add_package py_int py_float secure_filename req) w
            = (Raise OverflowError, w))
        /\ (sqlite_integer c = true -> sqlite_integer k = true ->
            PrimFloat.is_nan x = true ->
            run (add_package py_int py_float secure_filename req) w
            = (Raise IntegrityError, w))).
Proof.
  split; [| split].
  - intros s Hs Hx.
    unfold run, add_package, login_required. rewrite authenticated, posted.
    unfold bind at 1, query. unfold bind at 1, float_of_field. now rewrite Hs, Hx.
  - intros s x t Hs Hx Ht Hc.
    unfold run, add_package, login_required. rewrite authenticated, posted.
    unfold bind at 1, query. unfold bind at 1, float_of_field. rewrite Hs, Hx. cbn [ret].
    unfold bind at 1, int_of_field. now rewrite Ht, Hc.
  - intros s x t c r k Hs Hx Ht Hc Hr Hk.
    pose proof (add_package_outcome s t r x c k Hs Hx Ht Hc Hr Hk) as Hrun.
    split; [| split].
    + intros n Hrc Hrk Hnan Hn p. repeat split.
      now apply add_package_run with s t r.
    + intros Hout. rewrite Hrun.
      destruct Hout as [-> | ->]; [reflexivity | now rewrite andb_false_r].
    + intros Hrc Hrk Hnan. rewrite Hrun, Hrc, Hrk. cbn.
      destruct (multidict_get "name" (form req)); [now rewrite Hnan | reflexivity].
Qed.

End Catalog_requests.

(** ** Authorization of the admin routes *)

(** The dashboard is the one admin route that looks at the role: any other
    account is sent to the public index and sees no figure. *)
Lemma admin_dashboard_requires_admin (req : request) (w : world) (u : User.t) :
  current_user req w = Some u ->
  User.role u <> "admin" ->
  run (admin_dashboard req) w = (Ok (redirect "index"), w).
Proof.
  intros Hu Hr. unfold run, admin_dashboard, login_required. rewrite Hu.
  apply String.eqb_neq in Hr. now rewrite Hr.
Qed.

(** C1: for an authenticated account that is not an admin, the three
    admin operations do what they do for an admin.  A destination form
    and a package form (with a capacity and a destination id that an
    INTEGER column holds and a price that is a number) are stored, the
    confirmation link confirms the booking, and each answer is a redirect
    to the admin dashboard: no handler of the three looks at the role. *)
Theorem admin_operations_ignore_role (py_int : string -> option Z)
    (py_float : string -> option float) (secure_filename : string -> string)
    (req : request) (w : world) (u : User.t) :
  current_user req w = Some u ->
  User.role u <> "admin" ->
  (forall n l,
     method req = POST ->
     multidict_get "name" (form req) = Some n ->
     multidict_get "location" (form req) = Some l ->
     run (add_destination req) w
     = (Ok (redirect "admin_dashboard"),
        with_new_destination w
          (new_destination (db w) n l (multidict_get "description" (form req))
             (multidict_get "best_season" (form req)))))
  /\ (forall s t r n x c k,
        method req = POST ->
        multidict_get "price" (form req) = Some s -> py_float s = Some x ->
        multidict_get "capacity" (form req) = Some t -> py_int t = Some c ->
        multidict_get "dest_id" (form req) = Some r -> py_int r = Some k ->
        has_key Destination.id k (destinations (db w)) = true ->
        sqlite_integer c = true -> sqlite_integer k = true ->
        PrimFloat.is_nan x = false ->
        multidict_get "name" (form req) = Some n ->
        run (add_package py_int py_float secure_filename req) w
        = (Ok (redirect "admin_dashboard"),
           with_new_package w
             (new_package (db w) n (multidict_get "duration" (form req)) x c k
                (image_filename secure_filename req))))
  /\ (forall id b,
        query_get Booking.id id (bookings (db w)) = Some b ->
        run (confirm_booking id req) w
        = (Ok (redirect "admin_dashboard"), confirmed id w)).
Proof.
  intros Hu _. repeat split.
  - intros n l Hm. now apply add_destination_run with u.
  - intros s t r n x c k Hm Hs Hx Ht Hc Hr Hk _.
    now apply add_package_run with u s t r.
  - intros id b. now apply confirm_booking_run with u.
Qed.

(** ** Reporting: the most popular destination *)

Lemma in_insert_desc {A : Type} (key : A -> Z) (a x : A) (l : list A) :
  In x (insert_desc key a l) <-> x = a \/ In x l.
Proof.
  induction l as [| y r IH]; cbn.
  - intuition congruence.
  - destruct (key y <=? key a); cbn; [intuition congruence |].
    rewrite IH. intuition congruence.
Qed.

Lemma in_order_by_desc {A : Type} (key : A -> Z) (x : A) (l : list A) :
  In x (order_by_desc key l) <-> In x l.
Proof.
  induction l as [| a l IH]; [reflexivity |].
  change (order_by_desc key (a :: l)) with (insert_desc key a (order_by_desc key l)).
  rewrite in_insert_desc, IH. cbn. intuition congruence.
Qed.

(** The first row of a descending order has the largest key. *)
Lemma order_by_desc_head {A : Type} (key : A -> Z) (l : list A) (x : A) (r : list A) :
  order_by_desc key l = x :: r -> forall y, In y l -> key y <= key x.
Proof.
  revert x r. induction l as [| a l IH]; intros x r H y Hy; [contradiction |].
  change (order_by_desc key (a :: l))
    with (insert_desc key a (order_by_desc key l)) in H.
  destruct (order_by_desc key l) as [| h t] eqn:E.
  - cbn in H. inversion H; subst.
    destruct Hy as [-> | Hy]; [lia |].
    apply (in_order_by_desc key) in Hy. rewrite E in Hy. contradiction.
  - cbn in H. specialize (IH h t eq_refl).
    destruct (key h <=? key a) eqn:C; inversion H; subst.
    + apply Z.leb_le in C. destruct Hy as [-> | Hy]; [lia |].
      specialize (IH y Hy). lia.
    + apply Z.leb_gt in C. destruct Hy as [-> | Hy]; [lia | now apply IH].
Qed.

Lemma in_group_by {A : Type} (key : A -> Z) (rows g : list A) :
  In g (group_by key rows) <->
  exists r, In r rows /\ g = filter (fun r' => key r' =? key r) rows.
Proof.
  unfold group_by. rewrite in_map_iff. split.
  - intros [k [<- Hk]]. apply nodup_In, in_map_iff in Hk as [r [<- Hr]]. eauto.
  - intros [r [Hr ->]]. exists (key r). split; [reflexivity |].
    apply nodup_In, in_map, Hr.
Qed.

Lemma filter_flat_map_length {A B : Type} (F : B -> bool) (g : A -> list B) (l : list A) :
  List.length (filter F (flat_map g l))
  = list_sum (map (fun a => List.length (filter F (g a))) l).
Proof.
  induction l as [| a l IH]; cbn; [reflexivity |].
  now rewrite filter_app, length_app, IH.
Qed.

Lemma list_sum_flat_map {A B : Type} (h : B -> nat) (g : A -> list B) (l : list A) :
  list_sum (map h (flat_map g l)) = list_sum (map (fun a => list_sum (map h (g a))) l).
Proof.
  induction l as [| a l IH]; cbn; [reflexivity |].
  now rewrite map_app, list_sum_app, IH.
Qed.

Lemma filter_pairs_const {A B : Type} (F : A * B -> bool) (a : A) (c : bool) (l : list B) :
  (forall b, F (a, b) = c) ->
  filter F (map (pair a) l) = if c then map (pair a) l else [].
Proof.
  intros H. induction l as [| b l IH]; cbn; [now destruct c |].
  rewrite H, IH. now destruct c.
Qed.

Lemma list_sum_cons (n : nat) (l : list nat) : list_sum (n :: l) = (n + list_sum l)%nat.
Proof. reflexivity. Qed.

Lemma list_sum_zero {A : Type} (l : list A) : list_sum (map (fun _ => 0%nat) l) = 0%nat.
Proof. induction l; cbn; auto. Qed.

Lemma list_sum_all_zero {A : Type} (f : A -> nat) (l : list A) :
  (forall a, In a l -> f a = 0%nat) -> list_sum (map f l) = 0%nat.
Proof.
  intros H. induction l as [| a l IH]; [reflexivity |].
  cbn [map]. rewrite list_sum_cons, (H a), IH; [reflexivity | | now left].
  intros b Hb. apply H. now right.
Qed.

(** A key that is unique in its table selects one row. *)
Lemma list_sum_unique_key {A : Type} (key : A -> Z) (l : list A) (x : A) (n : nat) :
  distinct (map key l) = true -> In x l ->
  list_sum (map (fun y => if key y =? key x then n else 0%nat) l) = n.
Proof.
  induction l as [| y l IH]; cbn [map distinct In]; intros Hd Hin; [contradiction |].
  rewrite list_sum_cons.
  apply andb_true_iff in Hd as [Hy Hd]. apply negb_true_iff in Hy.
  destruct Hin as [-> | Hin].
  - rewrite Z.eqb_refl.
    rewrite list_sum_all_zero; [lia |]. intros z Hz.
    destruct (key z =? key x) eqn:E; [| reflexivity].
    exfalso. apply Z.eqb_eq in E.
    assert (existsb (Z.eqb (key x)) (map key l) = true) as Hex; [| congruence].
    apply existsb_exists. exists (key z). split; [now apply in_map | now apply Z.eqb_eq].
  - rewrite (IH Hd Hin).
    destruct (key y =? key x) eqn:E; [| lia].
    exfalso. apply Z.eqb_eq in E.
    assert (existsb (Z.eqb (key y)) (map key l) = true) as Hex; [| congruence].
    apply existsb_exists. exists (key x). split; [now apply in_map | now apply Z.eqb_eq].
Qed.

(** With unique package keys, at most one package has a given key, and it
    is the one that the key finds. *)
Lemma count_packages_with_key (ps : list Package.t) (i k : Z) :
  distinct (map Package.id ps) = true ->
  List.length (filter (fun p => i =? Package.id p)
                 (filter (fun p => Package.dest_id p =? k) ps))
  = match query_get Package.id i ps with
    | Some p => if Package.dest_id p =? k then 1%nat else 0%nat
    | None => 0%nat
    end.
Proof.
  unfold query_get. induction ps as [| p ps IH]; cbn; intros Hd; [reflexivity |].
  apply andb_true_iff in Hd as [Hp Hd]. apply negb_true_iff in Hp.
  rewrite (Z.eqb_sym (Package.id p) i).
  destruct (i =? Package.id p) eqn:Ei.
  - apply Z.eqb_eq in Ei. subst i.
    assert (Hnone : filter (fun q => Package.id p =? Package.id q)
                      (filter (fun q => Package.dest_id q =? k) ps) = []).
    { destruct (filter _ (filter _ ps)) as [| q qs] eqn:E; [reflexivity |].
      exfalso.
      assert (Hq : In q (q :: qs)) by now left.
      rewrite <- E in Hq. apply filter_In in Hq as [Hq Hid].
      apply filter_In in Hq as [Hq _].
      assert (existsb (Z.eqb (Package.id p)) (map Package.id ps) = true) as Hex;
        [| congruence].
      apply existsb_exists. exists (Package.id q). split; [now apply in_map | exact Hid]. }
    destruct (Package.dest_id p =? k); cbn.
    + rewrite Z.eqb_refl. cbn. now rewrite Hnone.
    + exact (f_equal (@List.length _) Hnone).
  - destruct (Package.dest_id p =? k); cbn; [rewrite Ei |]; now apply IH.
Qed.

Lemma list_sum_map_add {A : Type} (f g : A -> nat) (l : list A) :
  list_sum (map (fun a => (f a + g a)%nat) l)
  = (list_sum (map f l) + list_sum (map g l))%nat.
Proof.
  induction l as [| a l IH]; [reflexivity |].
  cbn [map]. rewrite !list_sum_cons, IH. lia.
Qed.

Lemma list_sum_indicator {A : Type} (f : A -> bool) (l : list A) :
  list_sum (map (fun a => if f a then 1%nat else 0%nat) l) = List.length (filter f l).
Proof.
  induction l as [| a l IH]; [reflexivity |].
  cbn [map filter]. rewrite list_sum_cons, IH. now destruct (f a).
Qed.

(** Counting the bookings package by package, over the packages of a
    destination, counts the bookings whose package is of that destination. *)
Lemma bookings_by_package (ps : list Package.t) (bs : list Booking.t) (k : Z) :
  distinct (map Package.id ps) = true ->
  list_sum (map (fun p => List.length
                            (filter (fun b => Booking.package_id b =? Package.id p) bs))
              (filter (fun p => Package.dest_id p =? k) ps))
  = List.length
      (filter (fun b =>
         match query_get Package.id (Booking.package_id b) ps with
         | Some p => Package.dest_id p =? k
         | None => false
         end) bs).
Proof.
  intros Hd. induction bs as [| b bs IH].
  - cbn [filter List.length]. apply list_sum_zero.
  - assert (Hsplit :
      forall p, List.length
                  (filter (fun b0 => Booking.package_id b0 =? Package.id p) (b :: bs))
                = Nat.add (Nat.b2n (Booking.package_id b =? Package.id p))
                    (List.length
                       (filter (fun b0 => Booking.package_id b0 =? Package.id p) bs))).
    { intros p. cbn [filter]. now destruct (Booking.package_id b =? Package.id p). }
    rewrite (map_ext _ _ Hsplit), list_sum_map_add, IH.
    unfold Nat.b2n. rewrite list_sum_indicator.
    rewrite (count_packages_with_key ps (Booking.package_id b) k Hd).
    cbn [filter].
    destruct (query_get Package.id (Booking.package_id b) ps) as [p |]; [| reflexivity].
    now destruct (Package.dest_id p =? k).
Qed.

Section Popular.

Variable d : database.
Hypothesis destination_keys : distinct (map Destination.id (destinations d)) = true.
Hypothesis package_keys : distinct (map Package.id (packages d)) = true.

(** The size of the group of a destination is its booking count. *)
Lemma group_size (ds : Destination.t) :
  In ds (destinations d) ->
  Z.of_nat (List.length
    (filter (fun r => group_key r =? Destination.id ds) (destination_bookings d)))
  = booking_count d ds.
Proof.
  intros Hds.
  unfold booking_count. f_equal.
  rewrite <- (bookings_by_package _ _ _ package_keys).
  unfold destination_bookings. unfold inner_join at 1.
  rewrite filter_flat_map_length.
  rewrite (map_ext _
    (fun dp => if Destination.id (fst dp) =? Destination.id ds
               then List.length (filter (fun b => Booking.package_id b =? Package.id (snd dp))
                                   (bookings d))
               else 0%nat)).
  2:{ intros dp.
      rewrite (filter_pairs_const _ dp (Destination.id (fst dp) =? Destination.id ds));
        [| reflexivity].
      destruct (Destination.id (fst dp) =? Destination.id ds); [| reflexivity].
      now rewrite length_map. }
  unfold inner_join. rewrite list_sum_flat_map.
  set (X := list_sum (map _ (filter _ (packages d)))).
  rewrite (map_ext_in _
    (fun ds' => if Destination.id ds' =? Destination.id ds then X else 0%nat)).
  - now apply list_sum_unique_key.
  - intros ds' _. rewrite map_map. cbn [fst snd].
    destruct (Destination.id ds' =? Destination.id ds) eqn:E.
    + apply Z.eqb_eq in E. subst X. rewrite E. reflexivity.
    + apply list_sum_zero.
Qed.

Lemma joined_row_destination (r : Destination.t * Package.t * Booking.t) :
  In r (destination_bookings d) -> In (fst (fst r)) (destinations d).
Proof.
  destruct r as [[ds p] b]. unfold destination_bookings. intros H.
  apply in_inner_join in H as [H _]. now apply in_inner_join in H as [H _].
Qed.

Lemma popular_row_of_group (r : Destination.t * Package.t * Booking.t) :
  In r (destination_bookings d) ->
  exists n,
    In (n, Z.of_nat (List.length
                       (filter (fun r' => group_key r' =? group_key r)
                          (destination_bookings d))))
      (flat_map name_and_count (group_by group_key (destination_bookings d))).
Proof.
  intros Hr.
  set (g := filter (fun r' => group_key r' =? group_key r) (destination_bookings d)).
  assert (Hg : In r g) by (apply filter_In; split; [exact Hr | apply Z.eqb_refl]).
  destruct g as [| r0 g'] eqn:E; [contradiction |].
  exists (Destination.name (fst (fst r0))).
  apply in_flat_map. exists (r0 :: g'). split.
  - apply in_group_by. exists r. split; [exact Hr | now rewrite <- E].
  - now left.
Qed.

Lemma popular_row_group (n : string) (c : Z) :
  In (n, c) (flat_map name_and_count (group_by group_key (destination_bookings d))) ->
  exists ds, In ds (destinations d) /\ n = Destination.name ds
             /\ c = booking_count d ds.
Proof.
  intros H. apply in_flat_map in H as [g [Hg Hnc]].
  apply in_group_by in Hg as [r [Hr Hgr]].
  destruct g as [| r0 g']; [contradiction |].
  destruct Hnc as [Hnc | []].
  assert (n = Destination.name (fst (fst r0))
          /\ c = Z.of_nat (List.length (r0 :: g'))) as [-> ->] by (split; congruence).
  assert (H0 : In r0 (r0 :: g')) by now left.
  rewrite Hgr in H0. apply filter_In in H0 as [H0 Hk]. apply Z.eqb_eq in Hk.
  exists (fst (fst r0)). split; [now apply joined_row_destination | split; [reflexivity |]].
  rewrite <- group_size by now apply joined_row_destination.
  rewrite Hgr. fold (group_key r0). now rewrite Hk.
Qed.

(** When some booking is joined to a destination, the answer is the name of
    a destination with the largest booking count. *)
Lemma popular_dest_most_booked (r0 : Destination.t * Package.t * Booking.t) :
  In r0 (destination_bookings d) ->
  exists ds, In ds (destinations d)
             /\ popular_dest d = Destination.name ds
             /\ forall ds', In ds' (destinations d) ->
                  booking_count d ds' <= booking_count d ds.
Proof.
  intros Hr0.
  destruct (popular_row_of_group r0 Hr0) as [n0 Hn0].
  unfold popular_dest, popular_query.
  destruct (order_by_desc snd
              (flat_map name_and_count (group_by group_key (destination_bookings d))))
    as [| [n c] rest] eqn:E.
  - apply (in_order_by_desc snd) in Hn0. rewrite E in Hn0. contradiction.
  - assert (Hin : In (n, c)
                    (flat_map name_and_count
                       (group_by group_key (destination_bookings d)))).
    { apply (in_order_by_desc snd). rewrite E. now left. }
    destruct (popular_row_group n c Hin) as [ds [Hds [Hn Hc]]].
    exists ds. split; [exact Hds | split; [exact Hn |]].
    intros ds' Hds'. rewrite <- Hc.
    rewrite <- (group_size ds' Hds').
    destruct (filter (fun r => group_key r =? Destination.id ds') (destination_bookings d))
      as [| r1 g1] eqn:Eg.
    + cbn. subst c. unfold booking_count. lia.
    + assert (Hr1 : In r1 (r1 :: g1)) by now left.
      rewrite <- Eg in Hr1. apply filter_In in Hr1 as [Hr1 Hk1]. apply Z.eqb_eq in Hk1.
      destruct (popular_row_of_group r1 Hr1) as [n1 Hn1].
      rewrite Hk1, Eg in Hn1.
      exact (order_by_desc_head snd _ _ _ E _ Hn1).
Qed.

End Popular.

Lemma db_ok_parts (d : database) :
  db_ok d = true ->
  distinct (map Destination.id (destinations d)) = true
  /\ distinct (map Package.id (packages d)) = true
  /\ (forall p, In p (packages d) ->
        has_key Destination.id (Package.dest_id p) (destinations d) = true)
  /\ (forall b, In b (bookings d) ->
        has_key Package.id (Booking.package_id b) (packages d) = true).
Proof.
  intros ok. unfold db_ok in ok. repeat (apply andb_true_iff in ok as [ok ?]).
  repeat split; try assumption.
  - intros p Hp. match goal with H : forallb _ (packages d) = true |- _ =>
      exact (proj1 (forallb_forall _ _) H p Hp) end.
  - intros b Hb. match goal with H : forallb _ (bookings d) = true |- _ =>
      pose proof (proj1 (forallb_forall _ _) H b Hb) as Hfk end.
    now apply andb_true_iff in Hfk as [Hfk _].
Qed.

Lemma no_joined_booking_no_answer (d : database) :
  destination_bookings d = [] -> popular_dest d = "No Bookings".
Proof. intros H. unfold popular_dest, popular_query. now rewrite H. Qed.

Lemma no_booking_no_join (d : database) :
  bookings d = [] -> destination_bookings d = [].
Proof.
  intros H. unfold destination_bookings. rewrite H. unfold inner_join at 1.
  induction (inner_join _ (destinations d) (packages d)); cbn; auto.
Qed.

(** C5 (as amended): with no booking in the store, and more generally when
    no booking is on a package of a destination in the store, the most
    popular destination is the text "No Bookings".  With unique keys, when
    some booking is on a package that belongs to a destination of the
    store, it is the name of a destination whose number of bookings,
    counted through the packages of the destination, is the largest among
    all destinations; this is so in every store with bookings in which the
    foreign keys are resolved. *)
Theorem popular_dest_spec (d : database) :
  (bookings d = [] -> popular_dest d = "No Bookings")
  /\ (destination_bookings d = [] -> popular_dest d = "No Bookings")
  /\ (distinct (map Destination.id (destinations d)) = true ->
      distinct (map Package.id (packages d)) = true ->
      (exists b p ds,
         In b (bookings d) /\ In p (packages d) /\ In ds (destinations d)
         /\ Booking.package_id b = Package.id p
         /\ Package.dest_id p = Destination.id ds) ->
      exists ds, In ds (destinations d)
                 /\ popular_dest d = Destination.name ds
                 /\ forall ds', In ds' (destinations d) ->
                      booking_count d ds' <= booking_count d ds)
  /\ (db_ok d = true -> bookings d <> [] ->
      exists ds, In ds (destinations d)
                 /\ popular_dest d = Destination.name ds
                 /\ forall ds', In ds' (destinations d) ->
                      booking_count d ds' <= booking_count d ds).
Proof.
  assert (Hjoin : forall b p ds,
            In b (bookings d) -> In p (packages d) -> In ds (destinations d) ->
            Booking.package_id b = Package.id p ->
            Package.dest_id p = Destination.id ds ->
            In (ds, p, b) (destination_bookings d)).
  { intros b p ds Hb Hp Hds Hbp Hpd. unfold destination_bookings.
    apply in_inner_join. split; [| split; [exact Hb |]].
    - apply in_inner_join. repeat split; try assumption. cbn. now apply Z.eqb_eq.
    - cbn. now apply Z.eqb_eq. }
  split; [| split; [| split]].
  - intros H. now apply no_joined_booking_no_answer, no_booking_no_join.
  - apply no_joined_booking_no_answer.
  - intros Hdd Hdp (b & p & ds & Hb & Hp & Hds & Hbp & Hpd).
    exact (popular_dest_most_booked d Hdd Hdp _ (Hjoin b p ds Hb Hp Hds Hbp Hpd)).
  - intros ok Hne. destruct (db_ok_parts d ok) as (Hdd & Hdp & Hfp & Hfb).
    assert (Hex : exists b, In b (bookings d)).
    { destruct (bookings d) as [| b bs]; [congruence | exists b; now left]. }
    destruct Hex as [b Hb].
    pose proof (Hfb b Hb) as Hkp. unfold has_key in Hkp.
    apply existsb_exists in Hkp as [p [Hp Hpid]]. apply Z.eqb_eq in Hpid.
    pose proof (Hfp p Hp) as Hkd. unfold has_key in Hkd.
    apply existsb_exists in Hkd as [ds [Hds Hdid]]. apply Z.eqb_eq in Hdid.
    exact (popular_dest_most_booked d Hdd Hdp _
             (Hjoin b p ds Hb Hp Hds (eq_sym Hpid) (eq_sym Hdid))).
Qed.

(** ** What every request keeps *)

Section Steps.

Variable R : database -> database -> Prop.
Hypothesis R_refl : forall d, R d d.
Hypothesis R_trans : forall a b c, R a b -> R b c -> R a c.

Lemma steps_ret {A : Type} (a : A) : steps R (ret a).
Proof. intros w a' w' H. inversion H; subst. apply R_refl. Qed.

Lemma steps_raise {A : Type} (e : exn) : steps R (@raise A e).
Proof. intros w a w' H. discriminate. Qed.

Lemma steps_query {A : Type} (q : database -> A) : steps R (query q).
Proof. intros w a w' H. inversion H; subst. apply R_refl. Qed.

Lemma steps_lift {A : Type} (r : result A) : steps R (lift r).
Proof. intros w a w' H. unfold lift in H. destruct r; inversion H; subst. apply R_refl. Qed.

Lemma steps_flash (message category : string) : steps R (flash message category).
Proof. intros w a w' H. inversion H; subst. apply R_refl. Qed.

Lemma steps_bind {A B : Type} (m : M A) (k : A -> M B) :
  steps R m -> (forall a, steps R (k a)) -> steps R (bind m k).
Proof.
  intros Hm Hk w b w' H. unfold bind in H.
  destruct (m w) as [[a w1] | e] eqn:E; [| discriminate].
  apply R_trans with (db w1); [exact (Hm _ _ _ E) | exact (Hk _ _ _ _ H)].
Qed.

Lemma steps_login_required (req : request) (view : User.t -> M response) :
  (forall u, steps R (view u)) -> steps R (login_required req view).
Proof.
  intros Hv w r w' H. unfold login_required in H.
  destruct (current_user req w) as [u |].
  - exact (Hv _ _ _ _ H).
  - inversion H; subst. apply R_refl.
Qed.

Lemma steps_run (h : M response) (w : world) : steps R h -> R (db w) (db (snd (run h w))).
Proof.
  intros Hh. unfold run. destruct (h w) as [[r w'] | e] eqn:E; cbn.
  - exact (Hh _ _ _ E).
  - apply R_refl.
Qed.

Hypothesis R_insert_destination :
  forall n l de se, steps R (insert_destination n l de se).
Hypothesis R_insert_package :
  forall n du x c k f, steps R (insert_package n du x c k f).
Hypothesis R_insert_booking :
  forall i k n x t, steps R (insert_booking i k n x t).
Hypothesis R_update_status : forall i s, steps R (update_status i s).

Variable py_int : string -> option Z.
Variable py_float : string -> option float.
Variable secure_filename : string -> string.

Lemma steps_int_of_field (x : option string) : steps R (int_of_field py_int x).
Proof.
  unfold int_of_field. destruct x as [s |]; [| apply steps_raise].
  destruct (py_int s); [apply steps_ret | apply steps_raise].
Qed.

Lemma steps_float_of_field (x : option string) : steps R (float_of_field py_float x).
Proof.
  unfold float_of_field. destruct x as [s |]; [| apply steps_raise].
  destruct (py_float s); [apply steps_ret | apply steps_raise].
Qed.

Lemma steps_add_destination (req : request) : steps R (add_destination req).
Proof.
  apply steps_login_required. intros _. destruct (method req); [apply steps_ret |].
  apply steps_bind; [apply R_insert_destination | intros _; apply steps_ret].
Qed.

Lemma steps_add_package (req : request) :
  steps R (add_package py_int py_float secure_filename req).
Proof.
  apply steps_login_required. intros _.
  apply steps_bind; [apply steps_query | intros dests].
  destruct (method req); [apply steps_ret |].
  apply steps_bind; [apply steps_float_of_field | intros x].
  apply steps_bind; [apply steps_int_of_field | intros c].
  apply steps_bind; [apply steps_int_of_field | intros k].
  apply steps_bind; [apply R_insert_package | intros _; apply steps_ret].
Qed.

Lemma steps_book_package (pkg_id utcnow : Z) (req : request) :
  steps R (book_package py_int pkg_id utcnow req).
Proof.
  apply steps_login_required. intros u.
  apply steps_bind.
  { unfold get_or_404. apply steps_bind; [apply steps_query | intros [p |]];
      [apply steps_ret | apply steps_raise]. }
  intros p. apply steps_bind.
  { unfold travelers_field. destruct (multidict_get "travelers" (form req));
      [apply steps_int_of_field | apply steps_ret]. }
  intros n. apply steps_bind; [apply steps_lift | intros x].
  apply steps_bind; [apply R_insert_booking | intros _].
  apply steps_bind; [apply steps_flash | intros _; apply steps_ret].
Qed.

Lemma steps_confirm_booking (id : Z) (req : request) : steps R (confirm_booking id req).
Proof.
  apply steps_login_required. intros _.
  apply steps_bind; [apply steps_query | intros [b |]]; [| apply steps_raise].
  apply steps_bind; [apply R_update_status | intros _; apply steps_ret].
Qed.

Lemma steps_index (req : request) : steps R (index req).
Proof. apply steps_bind; [apply steps_query | intros ?; apply steps_ret]. Qed.

Lemma steps_admin_dashboard (req : request) : steps R (admin_dashboard req).
Proof.
  apply steps_login_required. intros u.
  destruct (negb (String.eqb (User.role u) "admin")); [apply steps_ret |].
  repeat (apply steps_bind; [apply steps_query | intros ?]). apply steps_ret.
Qed.

End Steps.

(** *** The schema constraints *)

Lemma db_ok_iff (d : database) :
  db_ok d = true <->
  distinct (map User.id (users d)) = true
  /\ distinct (map Destination.id (destinations d)) = true
  /\ distinct (map Package.id (packages d)) = true
  /\ distinct (map Booking.id (bookings d)) = true
  /\ forallb (fun p => has_key Destination.id (Package.dest_id p) (destinations d))
       (packages d) = true
  /\ forallb (fun b => has_key Package.id (Booking.package_id b) (packages d)
                       && has_key User.id (Booking.user_id b) (users d))
       (bookings d) = true.
Proof. unfold db_ok. rewrite !andb_true_iff. tauto. Qed.

Lemma distinct_snoc (keys : list Z) (k : Z) :
  distinct keys = true -> ~ In k keys -> distinct (keys ++ [k]) = true.
Proof.
  induction keys as [| a r IH]; cbn; intros Hd Hk; [reflexivity |].
  apply andb_true_iff in Hd as [Ha Hr]. apply negb_true_iff in Ha.
  apply andb_true_iff. split; [| apply IH; tauto].
  apply negb_true_iff. rewrite existsb_app, Ha. cbn.
  rewrite orb_false_r. apply Z.eqb_neq. intros ->. tauto.
Qed.

Lemma distinct_snoc_next_id {A : Type} (key : A -> Z) (rows : list A) (r : A) :
  distinct (map key rows) = true -> key r = next_id (map key rows) ->
  distinct (map key (rows ++ [r])) = true.
Proof.
  intros Hd Hk. rewrite map_app. cbn. apply distinct_snoc; [exact Hd |].
  rewrite Hk. apply next_id_fresh.
Qed.

Lemma has_key_app {A : Type} (key : A -> Z) (i : Z) (rows more : list A) :
  has_key key i rows = true -> has_key key i (rows ++ more) = true.
Proof. unfold has_key. intros H. now rewrite existsb_app, H. Qed.

Lemma forallb_weaken {A : Type} (f g : A -> bool) (l : list A) :
  (forall x, f x = true -> g x = true) -> forallb f l = true -> forallb g l = true.
Proof.
  intros Hfg H. apply forallb_forall. intros x Hx. apply Hfg.
  exact (proj1 (forallb_forall _ _) H x Hx).
Qed.

Lemma store_ok_iff (d : database) :
  store_ok d = true <->
  distinct (map User.id (users d)) = true
  /\ distinct (map Destination.id (destinations d)) = true
  /\ distinct (map Package.id (packages d)) = true
  /\ distinct (map Booking.id (bookings d)) = true
  /\ forallb (fun b => has_key Package.id (Booking.package_id b) (packages d)
                       && has_key User.id (Booking.user_id b) (users d))
       (bookings d) = true.
Proof. unfold store_ok. rewrite !andb_true_iff. tauto. Qed.

Lemma insert_destination_keeps_store_ok (n l de se : option string) :
  steps keeps_store_ok (insert_destination n l de se).
Proof.
  intros w a w' H. unfold insert_destination in H.
  destruct n as [n |]; [| discriminate]. destruct l as [l |]; [| discriminate].
  inversion H; subst; clear H. cbn [db].
  intros (H1 & H2 & H3 & H4 & H5)%store_ok_iff.
  apply store_ok_iff. cbn [users destinations packages bookings with_destinations].
  repeat split; try assumption.
  now apply distinct_snoc_next_id.
Qed.

Lemma insert_package_keeps_store_ok (n du : option string) (x : float) (c k : Z)
    (f : string) :
  steps keeps_store_ok (insert_package n du x c k f).
Proof.
  intros w a w' H. unfold insert_package in H.
  destruct (sqlite_integer c && sqlite_integer k); [| discriminate].
  destruct n as [n |]; [| discriminate].
  destruct (PrimFloat.is_nan x); [discriminate |].
  inversion H; subst; clear H. cbn [db].
  intros (H1 & H2 & H3 & H4 & H5)%store_ok_iff.
  apply store_ok_iff. cbn [users destinations packages bookings with_packages].
  repeat split; try assumption.
  - now apply distinct_snoc_next_id.
  - revert H5. apply forallb_weaken. intros b Hb.
    apply andb_true_iff in Hb as [Hp Hu]. rewrite Hu, andb_true_r.
    now apply has_key_app.
Qed.

Lemma update_status_keeps_store_ok (i : Z) (s : string) :
  steps keeps_store_ok (update_status i s).
Proof.
  intros w a w' H. inversion H; subst; clear H. cbn [db].
  intros (H1 & H2 & H3 & H4 & H5)%store_ok_iff.
  apply store_ok_iff. cbn [users destinations packages bookings with_bookings].
  repeat split; try assumption.
  - rewrite map_map. erewrite map_ext; [exact H4 |].
    intros b. now destruct (Booking.id b =? i).
  - rewrite forallb_forall in *. intros b' Hb'.
    apply in_map_iff in Hb' as [b [<- Hb]]. specialize (H5 b Hb).
    now destruct (Booking.id b =? i).
Qed.

(** A booking request books on a package and for an account that it has
    read from the store. *)
Lemma book_package_keeps_store_ok (py_int : string -> option Z) (pkg_id utcnow : Z)
    (req : request) (w : world) :
  store_ok (db w) = true ->
  store_ok (db (snd (run (book_package py_int pkg_id utcnow req) w))) = true.
Proof.
  intros Hok.
  destruct (current_user req w) as [u |] eqn:Hu.
  2:{ unfold run, book_package, login_required. now rewrite Hu. }
  destruct (query_get Package.id pkg_id (packages (db w))) as [p |] eqn:Hp.
  2:{ unfold run, book_package, login_required. rewrite Hu.
      unfold bind at 1. unfold get_or_404, bind at 1, query. now rewrite Hp. }
  assert (Hcases : (exists n, travelers_field py_int req w = Ok (n, w))
                   \/ (exists e, travelers_field py_int req w = Raise e)).
  { unfold travelers_field, int_of_field.
    destruct (multidict_get "travelers" (form req)) as [s |]; [| left; now exists 1].
    destruct (py_int s) as [n |]; [left; now exists n | right; now exists ValueError]. }
  destruct Hcases as [[n Hn] | [e He]].
  - rewrite (book_package_run py_int pkg_id utcnow req w u Hu p n Hp Hn).
    destruct (float_of_int n) as [f |]; [| exact Hok].
    destruct (sqlite_integer n); [| exact Hok].
    cbn [snd db booked].
    apply store_ok_iff in Hok as (H1 & H2 & H3 & H4 & H5).
    apply store_ok_iff. cbn [users destinations packages bookings with_bookings].
    repeat split; try assumption.
    + now apply distinct_snoc_next_id.
    + rewrite forallb_app, H5. cbn [forallb new_booking Booking.package_id Booking.user_id].
      rewrite (has_key_query_get _ _ _ _ Hp).
      unfold current_user in Hu. destruct (session_user_id req) as [i |]; [| discriminate].
      pose proof (query_get_Some _ _ _ _ Hu) as [_ Hid].
      rewrite Hid, (has_key_query_get _ _ _ _ Hu). reflexivity.
  - unfold run, book_package, login_required. rewrite Hu.
    unfold bind at 1. unfold get_or_404, bind at 1, query. rewrite Hp. cbn [ret].
    unfold bind at 1. now rewrite He.
Qed.

(** Every handler keeps the keys of the store: the primary keys stay unique
    and every booking stays on a package and an account of the store,
    whether the request commits, is refused or raises. *)
Theorem handlers_keep_store_ok (py_int : string -> option Z)
    (py_float : string -> option float) (secure_filename : string -> string)
    (req : request) (w : world) :
  store_ok (db w) = true ->
  store_ok (db (snd (run (index req) w))) = true
  /\ store_ok (db (snd (run (admin_dashboard req) w))) = true
  /\ store_ok (db (snd (run (add_destination req) w))) = true
  /\ store_ok (db (snd (run (add_package py_int py_float secure_filename req) w))) = true
  /\ (forall pkg_id utcnow,
        store_ok (db (snd (run (book_package py_int pkg_id utcnow req) w))) = true)
  /\ (forall id, store_ok (db (snd (run (confirm_booking id req) w))) = true).
Proof.
  assert (Hrefl : forall d, keeps_store_ok d d) by (intros d H; exact H).
  assert (Htrans : forall a b c,
            keeps_store_ok a b -> keeps_store_ok b c -> keeps_store_ok a c)
    by (intros a b c Hab Hbc H; auto).
  intros Hok. split; [| split; [| split; [| split; [| split]]]].
  - refine (steps_run keeps_store_ok Hrefl _ w _ Hok). now apply steps_index.
  - refine (steps_run keeps_store_ok Hrefl _ w _ Hok). now apply steps_admin_dashboard.
  - refine (steps_run keeps_store_ok Hrefl _ w _ Hok).
    apply steps_add_destination; auto using insert_destination_keeps_store_ok.
  - refine (steps_run keeps_store_ok Hrefl _ w _ Hok).
    apply steps_add_package; auto using insert_package_keeps_store_ok.
  - intros pkg_id utcnow. now apply book_package_keeps_store_ok.
  - intros id. refine (steps_run keeps_store_ok Hrefl _ w _ Hok).
    apply steps_confirm_booking; auto using update_status_keeps_store_ok.
Qed.

Lemma empty_db_ok : db_ok (mk_database [] [] [] []) = true.
Proof. reflexivity. Qed.

(** *** The total price of a stored booking *)

Lemma keeps_prices_refl (d : database) : keeps_prices d d.
Proof. exists []. now rewrite app_nil_r. Qed.

Lemma keeps_prices_trans (a b c : database) :
  keeps_prices a b -> keeps_prices b c -> keeps_prices a c.
Proof.
  intros [e1 H1] [e2 H2]. exists (e1 ++ e2). now rewrite H2, H1, app_assoc.
Qed.

(** No handler changes the total price of a stored booking: the price of
    the package is read once, when the booking is made. *)
Lemma handlers_keep_prices (py_int : string -> option Z)
    (py_float : string -> option float) (secure_filename : string -> string)
    (req : request) (w : world) :
  keeps_prices (db w) (db (snd (run (add_destination req) w)))
  /\ keeps_prices (db w)
       (db (snd (run (add_package py_int py_float secure_filename req) w)))
  /\ (forall pkg_id utcnow,
        keeps_prices (db w) (db (snd (run (book_package py_int pkg_id utcnow req) w))))
  /\ (forall id, keeps_prices (db w) (db (snd (run (confirm_booking id req) w)))).
Proof.
  assert (Hd : forall n l de se, steps keeps_prices (insert_destination n l de se)).
  { intros n l de se w0 a w' H. unfold insert_destination in H.
    destruct n; [| discriminate]. destruct l; [| discriminate].
    inversion H; subst. exists []. cbn [db bookings with_destinations].
    now rewrite app_nil_r. }
  assert (Hp : forall n du x c k f, steps keeps_prices (insert_package n du x c k f)).
  { intros n du x c k f w0 a w' H. unfold insert_package in H.
    destruct (sqlite_integer c && sqlite_integer k); [| discriminate].
    destruct n; [| discriminate].
    destruct (PrimFloat.is_nan x); [discriminate |].
    inversion H; subst. exists []. cbn [db bookings with_packages].
    now rewrite app_nil_r. }
  assert (Hb : forall i k n x t, steps keeps_prices (insert_booking i k n x t)).
  { intros i k n x t w0 a w' H. unfold insert_booking in H.
    destruct (sqlite_integer n); [| discriminate].
    inversion H; subst. eexists. cbn [db bookings with_bookings].
    rewrite map_app. reflexivity. }
  assert (Hs : forall i s, steps keeps_prices (update_status i s)).
  { intros i s w0 a w' H. inversion H; subst. exists [].
    cbn [db bookings with_bookings]. rewrite app_nil_r, map_map.
    apply map_ext. intros b. now destruct (Booking.id b =? i). }
  repeat split; intros;
    apply (steps_run keeps_prices keeps_prices_refl).
  - exact (steps_add_destination _ keeps_prices_refl keeps_prices_trans Hd req).
  - exact (steps_add_package _ keeps_prices_refl keeps_prices_trans Hp _ _ _ req).
  - exact (steps_book_package _ keeps_prices_refl keeps_prices_trans Hb _ _ _ req).
  - exact (steps_confirm_booking _ keeps_prices_refl keeps_prices_trans Hs _ req).
Qed.

(** ** Concrete runs *)

(** On the sample store alice, a customer, posts a destination. *)
Lemma admin_operations_ignore_role_witness :
  run (add_destination (post [("name", "Leh"); ("location", "Ladakh")] (Some 2)))
    sample_world
  = (Ok (redirect "admin_dashboard"),
     mk_world
       (with_destinations [goa; Destination.mk 2 "Leh" "Ladakh" None None true] sample_db)
       []).
Proof.
  refine (proj1 (admin_operations_ignore_role decimal_int decimal_float (fun s => s)
                   (post [("name", "Leh"); ("location", "Ladakh")] (Some 2))
                   sample_world alice eq_refl _)
            "Leh" "Ladakh" eq_refl eq_refl eq_refl).
  discriminate.
Defined.

(** The three admin operations, run by alice on the sample data. *)
Lemma customer_runs_admin_operations :
  User.role alice = "customer"
  /\ run (add_destination (post [("name", "Leh"); ("location", "Ladakh")] (Some 2)))
       sample_world
     = (Ok (redirect "admin_dashboard"),
        mk_world
          (with_destinations [goa; Destination.mk 2 "Leh" "Ladakh" None None true]
             sample_db) [])
  /\ run (add_package decimal_int decimal_float (fun s => s)
            (post [("name", "Leh Trek"); ("price", "250.5"); ("capacity", "8");
                   ("dest_id", "1")] (Some 2)))
       sample_world
     = (Ok (redirect "admin_dashboard"),
        mk_world
          (with_packages
             [goa_trip; Package.mk 2 "Leh Trek" None 250.5%float 8 "default.jpg" 1]
             sample_db) [])
  /\ run (confirm_booking 1 (get (Some 2))) (mk_world pending_db [])
     = (Ok (redirect "admin_dashboard"),
        mk_world
          (with_bookings [Booking.mk 1 2 1 2 200%float "Confirmed" 1000] sample_db) [])
  /\ run (admin_dashboard (get (Some 2))) sample_world
     = (Ok (redirect "index"), sample_world).
Proof. repeat split. Qed.

(** On the sample store the admin opens the confirmation link of
    booking 7, which does not exist. *)
Lemma confirm_booking_missing_raises_witness :
  run (confirm_booking 7 (get (Some 1))) sample_world = (Raise AttributeError, sample_world).
Proof.
  exact (confirm_booking_missing_raises 7 (get (Some 1)) sample_world root eq_refl eq_refl).
Defined.

(** Two confirmations on a store with one pending booking. *)
Lemma confirm_booking_idempotent_witness :
  run (confirm_booking 1 (get (Some 1))) (mk_world pending_db [])
  = (Ok (redirect "admin_dashboard"), confirmed 1 (mk_world pending_db []))
  /\ query_get Booking.id 1 (bookings (db (confirmed 1 (mk_world pending_db []))))
     = Some (Booking.mk 1 2 1 2 200%float "Confirmed" 1000)
  /\ run (confirm_booking 1 (get (Some 1))) (confirmed 1 (mk_world pending_db []))
     = (Ok (redirect "admin_dashboard"), confirmed 1 (mk_world pending_db [])).
Proof.
  exact (confirm_booking_idempotent 1 (get (Some 1)) (mk_world pending_db []) root
           eq_refl (Booking.mk 1 2 1 2 200%float "Pending" 1000) eq_refl).
Defined.



(** On the sample store alice books without a [travelers] field, and with
    a count of -3. *)
Lemma book_package_travelers_default_witness :
  run (book_package decimal_int 1 1000 (post [] (Some 2))) sample_world
  = (Ok (redirect "my_bookings"),
     booked sample_world (Booking.mk 1 2 1 1 100%float "Pending" 1000))
  /\ run (book_package decimal_int 1 1000 (post [("travelers", "-3")] (Some 2)))
       sample_world
     = (Ok (redirect "my_bookings"),
        booked sample_world (Booking.mk 1 2 1 (-3) (-300)%float "Pending" 1000)).
Proof.
  split.
  - exact (proj1 (book_package_travelers_default decimal_int 1 1000 (post [] (Some 2))
                    sample_world alice eq_refl goa_trip eq_refl) eq_refl).
  - destruct (proj1 (proj2 (proj2 (book_package_travelers_default decimal_int 1 1000
                                     (post [("travelers", "-3")] (Some 2))
                                     sample_world alice eq_refl goa_trip eq_refl)
                              "-3" (-3) eq_refl eq_refl)) eq_refl) as [f [Hf H]].
    vm_compute in Hf. injection Hf as <-.
    exact (H eq_refl).
Defined.

(** A submitted count of -3 is booked as it is, for a total of -300. *)
Lemma book_package_negative_travelers :
  run (book_package decimal_int 1 1000 (post [("travelers", "-3")] (Some 2))) sample_world
  = (Ok (redirect "my_bookings"),
     booked sample_world (Booking.mk 1 2 1 (-3) (-300)%float "Pending" 1000)).
Proof. vm_compute. reflexivity. Qed.

(** The admin posts a package with price -5 and capacity 0, and the
    package is stored. *)
Lemma add_package_accepts_nonpositive :
  current_user (get (Some 1)) sample_world = Some root
  /\ decimal_float "-5" = Some (-5)%float
  /\ decimal_int "0" = Some 0
  /\ run (add_package decimal_int decimal_float (fun s => s)
            (post [("name", "Cheap"); ("price", "-5"); ("capacity", "0");
                   ("dest_id", "1")] (Some 1))) sample_world
     = (Ok (redirect "admin_dashboard"),
        mk_world
          (with_packages
             [goa_trip; Package.mk 2 "Cheap" None (-5)%float 0 "default.jpg" 1]
             sample_db) []).
Proof. repeat split; vm_compute; reflexivity. Qed.

(** On the sample store a price that is not a number stops the
    request. *)
Lemma add_package_checks_parsing_only_witness :
  run (add_package decimal_int decimal_float (fun s => s)
         (post [("name", "Cheap"); ("price", "abc"); ("capacity", "4"); ("dest_id", "1")]
            (Some 1))) sample_world
  = (Raise ValueError, sample_world).
Proof.
  exact (proj1 (add_package_checks_parsing_only decimal_int decimal_float (fun s => s)
                  (post [("name", "Cheap"); ("price", "abc"); ("capacity", "4");
                         ("dest_id", "1")] (Some 1))
                  sample_world root eq_refl eq_refl) "abc" eq_refl eq_refl).
Defined.

(** The revenue of the store with two confirmed bookings of 100 each,
    and of a store without bookings. *)
Lemma revenue_is_confirmed_total_witness :
  revenue popularity_db = Float 200%float /\ revenue sample_db = Int 0.
Proof.
  split.
  - exact (proj1 (revenue_is_confirmed_total popularity_db)).
  - exact (proj1 (proj2 (revenue_is_confirmed_total sample_db)) eq_refl).
Defined.

(** The store with three bookings on Dest A and one on Dest B. *)
Lemma popular_dest_spec_witness :
  popular_dest popularity_db = "Dest A"
  /\ exists ds, In ds (destinations popularity_db)
                /\ popular_dest popularity_db = Destination.name ds
                /\ forall ds', In ds' (destinations popularity_db) ->
                     booking_count popularity_db ds' <= booking_count popularity_db ds.
Proof.
  split; [reflexivity |].
  apply (proj1 (proj2 (proj2 (popular_dest_spec popularity_db)))); [reflexivity .. |].
  exists (Booking.mk 2 2 1 1 100%float "Confirmed" 1001),
         (Package.mk 1 "Trip A" None 100%float 10 "default.jpg" 1),
         (Destination.mk 1 "Dest A" "North" None None true).
  cbn. intuition.
Defined.

(** The admin posts a package for destination 99, which does not exist, and
    the store keeps it; alice books it; the store then has one booking and
    the most popular destination is still "No Bookings". *)
Lemma popular_dest_orphan :
  run (add_package decimal_int decimal_float (fun s => s)
         (post [("name", "Nowhere"); ("price", "10"); ("capacity", "5");
                ("dest_id", "99")] (Some 1))) sample_world
  = (Ok (redirect "admin_dashboard"), mk_world orphan_db [])
  /\ run (book_package decimal_int 2 1000 (post [("travelers", "1")] (Some 2)))
       (mk_world orphan_db [])
     = (Ok (redirect "my_bookings"),
        mk_world orphan_booked_db [("Booking request submitted!", "success")])
  /\ List.length (bookings orphan_booked_db) = 1%nat
  /\ map Destination.name (destinations orphan_booked_db) = ["Goa"]
  /\ popular_dest orphan_booked_db = "No Bookings".
Proof. repeat split; vm_compute; reflexivity. Qed.

(** The listing of the sample store, and of the same store with Goa
    switched off. *)
Lemma index_lists_active_packages_witness :
  run (index (get None)) sample_world = (Ok (render_index [goa_trip]), sample_world)
  /\ active_packages
       (with_destinations [Destination.mk 1 "Goa" "India" None None false] sample_db)
     = [].
Proof.
  split; [| reflexivity].
  exact (proj1 (index_lists_active_packages (get None) sample_world)).
Defined.

(** * Further properties of the routes *)

(** ** Uploads *)

Lemma after_last_dot_no_dot (s : string) :
  ~ In "."%char (list_ascii_of_string s) -> after_last_dot s = None.
Proof.
  induction s as [| c r IH]; cbn; intros H; [reflexivity |].
  rewrite IH by tauto.
  destruct (Ascii.eqb c ".") eqn:E; [| reflexivity].
  apply Ascii.eqb_eq in E. subst c. tauto.
Qed.

Lemma after_last_dot_extension (base ext : string) :
  ~ In "."%char (list_ascii_of_string ext) ->
  after_last_dot (base ++ String "."%char ext)%string = Some ext.
Proof.
  intros H. induction base as [| c r IH]; cbn.
  - now rewrite (after_last_dot_no_dot ext H).
  - cbn in IH. now rewrite IH.
Qed.

(** A file name is allowed exactly when the text after its last dot is
    png, jpg or jpeg in any mix of upper and lower case; a name without a
    dot is never allowed, whatever it spells. *)
Theorem allowed_file_extension :
  (forall name, ~ In "."%char (list_ascii_of_string name) -> allowed_file name = false)
  /\ (forall base ext,
        ~ In "."%char (list_ascii_of_string ext) ->
        allowed_file (base ++ String "."%char ext)%string
        = existsb (String.eqb (lower ext)) ["png"; "jpg"; "jpeg"]).
Proof.
  split.
  - intros name H. unfold allowed_file. now rewrite after_last_dot_no_dot.
  - intros base ext H. unfold allowed_file. now rewrite after_last_dot_extension.
Qed.

Lemma allowed_file_extension_witness :
  allowed_file "beach.JPG" = true /\ allowed_file "beach.jpg.exe" = false
  /\ allowed_file "png" = false.
Proof.
  split; [| split].
  - refine (eq_trans (proj2 allowed_file_extension "beach" "JPG" _) eq_refl).
    cbn. intuition discriminate.
  - refine (eq_trans (proj2 allowed_file_extension "beach.jpg" "exe" _) eq_refl).
    cbn. intuition discriminate.
  - refine (proj1 allowed_file_extension "png" _).
    cbn. intuition discriminate.
Defined.

(** ** The database URL *)

Lemma substring_all (s : string) : substring 0 (String.length s) s = s.
Proof. induction s as [| c r IH]; cbn; [reflexivity | now rewrite IH]. Qed.

Lemma prefix_app (p r : string) : String.prefix p (p ++ r)%string = true.
Proof.
  induction p as [| c p IH]; cbn; [now destruct r |].
  destruct (ascii_dec c c); [exact IH | congruence].
Qed.

Lemma substring_drop (p r : string) :
  substring (String.length p) (String.length (p ++ r) - String.length p) (p ++ r)%string
  = r.
Proof.
  induction p as [| c p IH]; cbn [String.length append].
  - rewrite Nat.sub_0_r. apply substring_all.
  - cbn [substring Nat.sub]. exact IH.
Qed.

Lemma replace_first_unfold (old new s : string) :
  replace_first old new s
  = if String.prefix old s then
      (new ++ substring (String.length old) (String.length s - String.length old) s)%string
    else
      match s with
      | EmptyString => EmptyString
      | String c r => String c (replace_first old new r)
      end.
Proof. destruct s; reflexivity. Qed.

Lemma replace_first_prefix (old new r : string) :
  replace_first old new (old ++ r)%string = (new ++ r)%string.
Proof. now rewrite replace_first_unfold, prefix_app, substring_drop. Qed.

Lemma prefix_split (p s : string) :
  String.prefix p s = true -> exists r, s = (p ++ r)%string.
Proof.
  revert s. induction p as [| c p IH]; intros s H; [exists s; reflexivity |].
  destruct s as [| c' s]; [discriminate |]. cbn in H.
  destruct (ascii_dec c c') as [<- |]; [| discriminate].
  destruct (IH s H) as [r ->]. now exists r.
Qed.

(** A URL of the legacy scheme is rewritten to the standard scheme, with the
    rest kept as it is; any other URL is kept; the URI that comes out never
    has the legacy scheme, and rewriting it again changes nothing. *)
Theorem database_uri_scheme :
  (forall rest,
     database_uri (Some ("postgres://" ++ rest)%string) = ("postgresql://" ++ rest)%string)
  /\ (forall url, String.prefix "postgres://" url = false -> database_uri (Some url) = url)
  /\ database_uri None = "sqlite:///gurudatta_agency.db"
  /\ (forall env, String.prefix "postgres://" (database_uri env) = false)
  /\ (forall env, database_uri (Some (database_uri env)) = database_uri env).
Proof.
  assert (H1 : forall rest,
     database_uri (Some ("postgres://" ++ rest)%string) = ("postgresql://" ++ rest)%string).
  { intros rest. unfold database_uri.
    now rewrite prefix_app, (replace_first_prefix "postgres://" "postgresql://" rest). }
  assert (H2 : forall url, String.prefix "postgres://" url = false ->
                           database_uri (Some url) = url).
  { intros url H. unfold database_uri. now rewrite H. }
  assert (H4 : forall env, String.prefix "postgres://" (database_uri env) = false).
  { intros [url |]; [| reflexivity].
    destruct (String.prefix "postgres://" url) eqn:E; [| now rewrite H2].
    apply prefix_split in E as [rest ->]. rewrite H1. reflexivity. }
  repeat split; auto.
Qed.

(** ** Anonymous requests *)

(** A request without an account in its session, or with a session whose
    account no longer exists, never reaches a protected view: every one of
    them answers with a redirect to the login page, flashes the login
    message and leaves the store as it is. *)
Theorem anonymous_is_sent_to_login (py_int : string -> option Z)
    (py_float : string -> option float) (secure_filename : string -> string)
    (req : request) (w : world) :
  current_user req w = None ->
  let w' := mk_world (db w) (flashes w ++ [("Please log in to access this page.", "message")]) in
  run (admin_dashboard req) w = (Ok (redirect "login"), w')
  /\ run (add_destination req) w = (Ok (redirect "login"), w')
  /\ run (add_package py_int py_float secure_filename req) w = (Ok (redirect "login"), w')
  /\ (forall pkg_id utcnow,
        run (book_package py_int pkg_id utcnow req) w = (Ok (redirect "login"), w'))
  /\ (forall id, run (confirm_booking id req) w = (Ok (redirect "login"), w'))
  /\ exec (my_bookings req) w = (Ok (respond (redirect "login")), w').
Proof.
  intros H w'.
  repeat split; intros;
    unfold run, exec, admin_dashboard, add_destination, add_package, book_package,
      confirm_booking, my_bookings, login_required, login_required_page;
    now rewrite H.
Qed.

Lemma anonymous_is_sent_to_login_witness :
  run (confirm_booking 1 (get (Some 99))) (mk_world pending_db [])
  = (Ok (redirect "login"),
     mk_world pending_db [("Please log in to access this page.", "message")]).
Proof.
  exact (proj1 (proj2 (proj2 (proj2 (proj2
           (anonymous_is_sent_to_login decimal_int decimal_float (fun s => s)
              (get (Some 99)) (mk_world pending_db []) eq_refl))))) 1).
Defined.

Lemma admin_dashboard_requires_admin_witness :
  run (admin_dashboard (get (Some 2))) sample_world = (Ok (redirect "index"), sample_world).
Proof.
  refine (admin_dashboard_requires_admin (get (Some 2)) sample_world alice eq_refl _).
  discriminate.
Defined.

(** ** The dashboard's list of bookings *)

Lemma insert_desc_perm {A : Type} (key : A -> Z) (x : A) (l : list A) :
  Permutation (insert_desc key x l) (x :: l).
Proof.
  induction l as [| y r IH]; cbn; [apply Permutation_refl |].
  destruct (key y <=? key x); [apply Permutation_refl |].
  apply Permutation_trans with (y :: x :: r); [now constructor | constructor].
Qed.

Lemma order_by_desc_perm {A : Type} (key : A -> Z) (l : list A) :
  Permutation (order_by_desc key l) l.
Proof.
  induction l as [| a l IH]; [apply Permutation_refl |].
  change (order_by_desc key (a :: l)) with (insert_desc key a (order_by_desc key l)).
  apply Permutation_trans with (a :: order_by_desc key l);
    [apply insert_desc_perm | now constructor].
Qed.

Lemma insert_desc_sorted {A : Type} (key : A -> Z) (x : A) (l : list A) :
  StronglySorted (fun a b => key b <= key a) l ->
  StronglySorted (fun a b => key b <= key a) (insert_desc key x l).
Proof.
  induction l as [| y r IH]; cbn; intros Hs.
  - constructor; constructor.
  - inversion Hs as [| ? ? Hr Hy]; subst.
    destruct (key y <=? key x) eqn:C.
    + apply Z.leb_le in C. constructor; [exact Hs |].
      constructor; [lia |]. apply Forall_forall. intros z Hz.
      rewrite Forall_forall in Hy. specialize (Hy z Hz). lia.
    + apply Z.leb_gt in C. constructor; [now apply IH |].
      apply Forall_forall. intros z Hz. apply in_insert_desc in Hz as [-> | Hz]; [lia |].
      rewrite Forall_forall in Hy. now apply Hy.
Qed.

(** Rows with equal keys stay in storage order: of three rows dated 1000,
    1000 and 2000 the third comes first, then the first and the second. *)
Lemma order_by_desc_ties :
  map fst (order_by_desc snd [(1, 1000); (2, 1000); (3, 2000)]) = [3; 1; 2].
Proof. reflexivity. Qed.

Lemma order_by_desc_sorted {A : Type} (key : A -> Z) (l : list A) :
  StronglySorted (fun a b => key b <= key a) (order_by_desc key l).
Proof.
  induction l as [| a l IH]; [constructor |].
  change (order_by_desc key (a :: l)) with (insert_desc key a (order_by_desc key l)).
  now apply insert_desc_sorted.
Qed.

(** For an admin the dashboard shows every booking of the store once,
    newest first, and counts all of them whatever their status. *)
Theorem admin_dashboard_lists_all_bookings (req : request) (w : world) (u : User.t) :
  current_user req w = Some u ->
  User.role u = "admin" ->
  exists rev popular bks,
    run (admin_dashboard req) w
    = (Ok (render_dashboard rev (Z.of_nat (List.length (bookings (db w)))) popular bks), w)
    /\ Permutation bks (bookings (db w))
    /\ StronglySorted (fun a b => Booking.date_booked b <= Booking.date_booked a) bks.
Proof.
  intros Hu Hr. do 3 eexists. split; [| split].
  - unfold run, admin_dashboard, login_required. rewrite Hu, Hr. reflexivity.
  - apply order_by_desc_perm.
  - apply order_by_desc_sorted.
Qed.

Lemma admin_dashboard_lists_all_bookings_witness :
  exists rev popular bks,
    run (admin_dashboard (get (Some 1))) (mk_world popularity_db [])
    = (Ok (render_dashboard rev 4 popular bks), mk_world popularity_db [])
    /\ Permutation bks (bookings popularity_db)
    /\ StronglySorted (fun a b => Booking.date_booked b <= Booking.date_booked a) bks.
Proof.
  exact (admin_dashboard_lists_all_bookings (get (Some 1)) (mk_world popularity_db [])
           root eq_refl eq_refl).
Defined.

(** ** What a handler leaves alone *)

(** Each writing handler touches one table.  A destination form changes
    only the destinations and a package form only the packages; a booking
    request changes only the bookings, and so does a confirmation, which
    keeps every booking in place with all its fields but the status. *)
Theorem handlers_touch_one_table (py_int : string -> option Z)
    (py_float : string -> option float) (secure_filename : string -> string)
    (req : request) (w : world) :
  (let d' := db (snd (run (add_destination req) w)) in
   users d' = users (db w) /\ packages d' = packages (db w)
   /\ bookings d' = bookings (db w))
  /\ (let d' := db (snd (run (add_package py_int py_float secure_filename req) w)) in
      users d' = users (db w) /\ destinations d' = destinations (db w)
      /\ bookings d' = bookings (db w))
  /\ (forall pkg_id utcnow,
        let d' := db (snd (run (book_package py_int pkg_id utcnow req) w)) in
        users d' = users (db w) /\ destinations d' = destinations (db w)
        /\ packages d' = packages (db w))
  /\ (forall id,
        let d' := db (snd (run (confirm_booking id req) w)) in
        users d' = users (db w) /\ destinations d' = destinations (db w)
        /\ packages d' = packages (db w)
        /\ map (Booking.with_status "") (bookings d')
           = map (Booking.with_status "") (bookings (db w))).
Proof.
  split; [| split; [| split]].
  - set (R := fun d d' : database =>
        users d' = users d /\ packages d' = packages d /\ bookings d' = bookings d).
    apply (steps_run R); [now unfold R |].
    apply steps_add_destination; unfold R.
    + tauto.
    + intros a b c (-> & -> & ->) (-> & -> & ->). tauto.
    + intros n l de se w0 a w' H. unfold insert_destination in H.
      destruct n; [| discriminate]. destruct l; [| discriminate].
      inversion H; subst. cbn. tauto.
  - set (R := fun d d' : database =>
        users d' = users d /\ destinations d' = destinations d
        /\ bookings d' = bookings d).
    apply (steps_run R); [now unfold R |].
    apply steps_add_package; unfold R.
    + tauto.
    + intros a b c (-> & -> & ->) (-> & -> & ->). tauto.
    + intros n du x c k f w0 a w' H. unfold insert_package in H.
      destruct (sqlite_integer c && sqlite_integer k); [| discriminate].
      destruct n; [| discriminate].
      destruct (PrimFloat.is_nan x); [discriminate |].
      inversion H; subst. cbn. tauto.
  - intros pkg_id utcnow.
    set (R := fun d d' : database =>
        users d' = users d /\ destinations d' = destinations d
        /\ packages d' = packages d).
    apply (steps_run R); [now unfold R |].
    apply steps_book_package; unfold R.
    + tauto.
    + intros a b c (-> & -> & ->) (-> & -> & ->). tauto.
    + intros i k n x t w0 a w' H. unfold insert_booking in H.
      destruct (sqlite_integer n); [| discriminate].
      inversion H; subst. cbn. tauto.
  - intros id.
    set (R := fun d d' : database =>
        users d' = users d /\ destinations d' = destinations d
        /\ packages d' = packages d
        /\ map (Booking.with_status "") (bookings d')
           = map (Booking.with_status "") (bookings d)).
    apply (steps_run R); [now unfold R |].
    apply steps_confirm_booking; unfold R.
    + tauto.
    + intros a b c (-> & -> & -> & ->) (-> & -> & -> & ->). tauto.
    + intros i s w0 a w' H. inversion H; subst. cbn. repeat split.
      rewrite map_map. apply map_ext. intros b. now destruct (Booking.id b =? i).
Qed.

(** ** Bookings and the revenue figure *)

Lemma filter_confirmed_snoc_pending (bs : list Booking.t) (b : Booking.t) :
  Booking.status b = "Pending" ->
  filter is_confirmed (bs ++ [b]) = filter is_confirmed bs.
Proof.
  intros H. rewrite filter_app. cbn. unfold is_confirmed at 2. rewrite H. cbn.
  apply app_nil_r.
Qed.

(** A booking request never changes the revenue figure, whatever it
    submits: a new booking is pending, and only confirmed bookings count. *)
Theorem book_package_keeps_revenue (py_int : string -> option Z) (pkg_id utcnow : Z)
    (req : request) (w : world) :
  revenue (db (snd (run (book_package py_int pkg_id utcnow req) w))) = revenue (db w).
Proof.
  set (R := fun d d' : database => revenue d' = revenue d).
  apply (steps_run R); [now unfold R |].
  apply steps_book_package; unfold R.
  - reflexivity.
  - intros a b c -> ->. reflexivity.
  - intros i k n x t w0 a w' H. unfold insert_booking in H.
    destruct (sqlite_integer n); [| discriminate].
    inversion H; subst. cbn [db]. unfold revenue. cbn [bookings with_bookings].
    now rewrite filter_confirmed_snoc_pending.
Qed.

Lemma filter_key_unique {A : Type} (key : A -> Z) (rows : list A) (r : A) :
  distinct (map key rows) = true -> In r rows ->
  filter (fun x => key x =? key r) rows = [r].
Proof.
  induction rows as [| x rows IH]; cbn; intros Hd Hin; [contradiction |].
  apply andb_true_iff in Hd as [Hx Hd]. apply negb_true_iff in Hx.
  assert (Hno : forall y, In y rows -> key y <> key x).
  { intros y Hy E.
    assert (existsb (Z.eqb (key x)) (map key rows) = true) as Hex; [| congruence].
    apply existsb_exists. exists (key y). split; [now apply in_map |].
    apply Z.eqb_eq. congruence. }
  destruct Hin as [-> | Hin].
  - rewrite Z.eqb_refl. f_equal.
    destruct (filter (fun x => key x =? key r) rows) as [| y ys] eqn:E; [reflexivity |].
    exfalso. assert (Hy : In y (y :: ys)) by now left.
    rewrite <- E in Hy. apply filter_In in Hy as [Hy Hk]. apply Z.eqb_eq in Hk.
    exact (Hno y Hy Hk).
  - destruct (key x =? key r) eqn:E; [| now apply IH].
    apply Z.eqb_eq in E. exfalso. apply (Hno r Hin). congruence.
Qed.

Lemma filter_confirmed_after_first (i : Z) (bs : list Booking.t) :
  filter is_confirmed bs = [] ->
  filter is_confirmed
    (map (fun b => if Booking.id b =? i then Booking.with_status "Confirmed" b else b) bs)
  = map (Booking.with_status "Confirmed") (filter (fun b => Booking.id b =? i) bs).
Proof.
  induction bs as [| b bs IH]; cbn; intros H; [reflexivity |].
  destruct (is_confirmed b) eqn:Ec; [discriminate |].
  destruct (Booking.id b =? i); cbn.
  - now rewrite IH.
  - rewrite Ec. now apply IH.
Qed.

(** In a store without confirmed bookings and with unique booking keys,
    the confirmation of a booking makes its total price the revenue. *)
Theorem first_confirmation_sets_revenue (id : Z) (w : world) (b : Booking.t) :
  distinct (map Booking.id (bookings (db w))) = true ->
  filter is_confirmed (bookings (db w)) = [] ->
  query_get Booking.id id (bookings (db w)) = Some b ->
  revenue (db (confirmed id w))
  = if float_bool (Booking.total_price b) then Float (Booking.total_price b) else Int 0.
Proof.
  intros Hd Hnone Hb. apply query_get_Some in Hb as [Hin <-].
  unfold revenue, confirmed. cbn [db bookings with_bookings].
  rewrite filter_confirmed_after_first by exact Hnone.
  rewrite (filter_key_unique Booking.id _ b Hd Hin). reflexivity.
Qed.

Lemma first_confirmation_sets_revenue_witness :
  revenue (db (confirmed 1 (mk_world pending_db []))) = Float 200%float.
Proof.
  exact (first_confirmation_sets_revenue 1 (mk_world pending_db [])
           (Booking.mk 1 2 1 2 200%float "Pending" 1000) eq_refl eq_refl eq_refl).
Defined.

(** ** The public listing, row by row *)

Lemma filter_key_none {A : Type} (key : A -> Z) (i : Z) (rows : list A) :
  query_get key i rows = None -> filter (fun x => key x =? i) rows = [].
Proof.
  unfold query_get. induction rows as [| x rows IH]; cbn; [reflexivity |].
  destruct (key x =? i); [discriminate | exact IH].
Qed.

Lemma parents_of_package (d : database) (p : Package.t) :
  distinct (map Destination.id (destinations d)) = true ->
  filter (fun ds => Destination.id ds =? Package.dest_id p) (destinations d)
  = match query_get Destination.id (Package.dest_id p) (destinations d) with
    | Some ds => [ds]
    | None => []
    end.
Proof.
  intros Hd.
  destruct (query_get Destination.id (Package.dest_id p) (destinations d)) as [ds |] eqn:E.
  - apply query_get_Some in E as [Hin <-]. now apply filter_key_unique.
  - now apply filter_key_none.
Qed.

(** With unique destination keys the public listing is the packages table
    filtered by the active flag of the parent: every such package once, in
    storage order. *)
Theorem active_packages_in_order (d : database) :
  distinct (map Destination.id (destinations d)) = true ->
  active_packages d = filter (parent_active d) (packages d).
Proof.
  intros Hd. unfold active_packages, inner_join.
  induction (packages d) as [| p ps IH]; [reflexivity |].
  cbn [flat_map filter]. rewrite filter_app, map_app, IH. clear IH.
  rewrite (parents_of_package d p Hd). unfold parent_active at 2.
  destruct (query_get Destination.id (Package.dest_id p) (destinations d)) as [ds |];
    [| reflexivity].
  cbn. now destruct (Destination.is_active ds).
Qed.

Lemma active_packages_in_order_witness :
  active_packages sample_db = [goa_trip].
Proof. exact (active_packages_in_order sample_db eq_refl). Defined.

(** A package that an account adds under an active destination, with a
    capacity and a destination id that an INTEGER column holds and a price
    that is a number, is in the public listing of the state it leaves. *)
Theorem new_package_is_listed (py_int : string -> option Z)
    (py_float : string -> option float) (secure_filename : string -> string)
    (req : request) (w : world) (u : User.t) (s t r n : string) (x : float) (c k : Z)
    (ds : Destination.t) :
  current_user req w = Some u ->
  method req = POST ->
  multidict_get "price" (form req) = Some s -> py_float s = Some x ->
  multidict_get "capacity" (form req) = Some t -> py_int t = Some c ->
  multidict_get "dest_id" (form req) = Some r -> py_int r = Some k ->
  multidict_get "name" (form req) = Some n ->
  sqlite_integer c = true -> sqlite_integer k = true ->
  PrimFloat.is_nan x = false ->
  In ds (destinations (db w)) -> Destination.id ds = k ->
  Destination.is_active ds = true ->
  exists p w',
    run (add_package py_int py_float secure_filename req) w
    = (Ok (redirect "admin_dashboard"), w')
    /\ Package.name p = n /\ Package.price p = x
    /\ In p (active_packages (db w'))
    /\ ~ In (Package.id p) (map Package.id (packages (db w))).
Proof.
  intros Hu Hm Hs Hx Ht Hc Hr Hk Hn Hrc Hrk Hnan Hds Hid Hact.
  set (p := new_package (db w) n (multidict_get "duration" (form req)) x c k
              (image_filename secure_filename req)).
  exists p, (with_new_package w p). split; [| split; [| split; [| split]]].
  - exact (add_package_run py_int py_float secure_filename req w u Hu Hm
             s t r n x c k Hs Hx Ht Hc Hr Hk Hrc Hrk Hnan Hn).
  - reflexivity.
  - reflexivity.
  - unfold active_packages. apply in_map_iff.
    exists (p, ds). split; [reflexivity |].
    apply filter_In. split; [| exact Hact].
    apply in_inner_join. cbn [db with_new_package packages destinations with_packages].
    repeat split.
    + apply in_or_app. right. now left.
    + exact Hds.
    + cbn. now apply Z.eqb_eq.
  - apply next_id_fresh.
Qed.

Lemma new_package_is_listed_witness :
  exists p w',
    run (add_package decimal_int decimal_float (fun s => s)
           (post [("name", "Leh Trek"); ("price", "250.5"); ("capacity", "8");
                  ("dest_id", "1")] (Some 1))) sample_world
    = (Ok (redirect "admin_dashboard"), w')
    /\ Package.name p = "Leh Trek" /\ Package.price p = 250.5%float
    /\ In p (active_packages (db w'))
    /\ ~ In (Package.id p) (map Package.id (packages (db sample_world))).
Proof.
  exact (new_package_is_listed decimal_int decimal_float (fun s => s)
           (post [("name", "Leh Trek"); ("price", "250.5"); ("capacity", "8");
                  ("dest_id", "1")] (Some 1))
           sample_world root "250.5" "8" "1" "Leh Trek" 250.5%float 8 1 goa
           eq_refl eq_refl eq_refl eq_refl eq_refl eq_refl eq_refl eq_refl eq_refl
           eq_refl eq_refl eq_refl (or_introl eq_refl) eq_refl eq_refl).
Defined.

(** ** Forms with missing or malformed fields *)

(** A destination form without a name or without a location is refused by
    the store with [IntegrityError] and nothing is stored; opening the
    form with GET shows it and stores nothing. *)
Theorem add_destination_needs_name_and_location (req : request) (w : world) (u : User.t) :
  current_user req w = Some u ->
  (method req = POST ->
   multidict_get "name" (form req) = None \/ multidict_get "location" (form req) = None ->
   run (add_destination req) w = (Raise IntegrityError, w))
  /\ (method req = GET -> run (add_destination req) w = (Ok render_add_destination, w)).
Proof.
  intros Hu. split.
  - intros Hm H. unfold run, add_destination, login_required. rewrite Hu, Hm.
    unfold bind, insert_destination.
    destruct H as [-> | ->]; [reflexivity |].
    now destruct (multidict_get "name" (form req)).
  - intros Hm. unfold run, add_destination, login_required. now rewrite Hu, Hm.
Qed.

Lemma add_destination_needs_name_and_location_witness :
  run (add_destination (post [("name", "Leh")] (Some 1))) sample_world
  = (Raise IntegrityError, sample_world).
Proof.
  exact (proj1 (add_destination_needs_name_and_location
                  (post [("name", "Leh")] (Some 1)) sample_world root eq_refl)
           eq_refl (or_intror eq_refl)).
Defined.

(** A package form without a price, or with a price but without a
    capacity, stops with [TypeError] (the builtins are applied to [None]);
    a form whose numbers parse but that has no name is refused by the store
    with [IntegrityError], or stops with [OverflowError] before that when
    the capacity or the destination id is no value of an INTEGER column.
    Nothing is stored in any of these cases, and GET shows the form with
    all destinations. *)
Theorem add_package_needs_its_fields (py_int : string -> option Z)
    (py_float : string -> option float) (secure_filename : string -> string)
    (req : request) (w : world) (u : User.t) :
  current_user req w = Some u ->
  (method req = POST ->
   (multidict_get "price" (form req) = None ->
    run (add_package py_int py_float secure_filename req) w = (Raise TypeError, w))
   /\ (forall s x,
         multidict_get "price" (form req) = Some s -> py_float s = Some x ->
         multidict_get "capacity" (form req) = None ->
         run (add_package py_int py_float secure_filename req) w = (Raise TypeError, w))
   /\ (forall s x t c r k,
         multidict_get "price" (form req) = Some s -> py_float s = Some x ->
         multidict_get "capacity" (form req) = Some t -> py_int t = Some c ->
         multidict_get "dest_id" (form req) = Some r -> py_int r = Some k ->
         multidict_get "name" (form req) = None ->
         run (add_package py_int py_float secure_filename req) w
         = (Raise (if sqlite_integer c && sqlite_integer k
                   then IntegrityError else OverflowError), w)))
  /\ (method req = GET ->
      run (add_package py_int py_float secure_filename req) w
      = (Ok (render_add_package (destinations (db w))), w)).
Proof.
  intros Hu. split.
  - intros Hm. repeat split.
    + intros Hp. unfold run, add_package, login_required. rewrite Hu, Hm.
      unfold bind at 1, query. unfold bind at 1, float_of_field. now rewrite Hp.
    + intros s x Hs Hx Hc. unfold run, add_package, login_required. rewrite Hu, Hm.
      unfold bind at 1, query. unfold bind at 1, float_of_field. rewrite Hs, Hx. cbn [ret].
      unfold bind at 1, int_of_field. now rewrite Hc.
    + intros s x t c r k Hs Hx Ht Hc Hr Hk Hn.
      unfold run, add_package, login_required. rewrite Hu, Hm.
      unfold bind at 1, query. unfold bind at 1, float_of_field. rewrite Hs, Hx. cbn [ret].
      unfold bind at 1, int_of_field. rewrite Ht, Hc. cbn [ret].
      unfold bind at 1. rewrite Hr, Hk. cbn [ret].
      unfold bind at 1, insert_package. rewrite Hn.
      now destruct (sqlite_integer c && sqlite_integer k).
  - intros Hm. unfold run, add_package, login_required. rewrite Hu, Hm. reflexivity.
Qed.

Lemma add_package_needs_its_fields_witness :
  run (add_package decimal_int decimal_float (fun s => s)
         (post [("name", "Cheap"); ("capacity", "4"); ("dest_id", "1")] (Some 1)))
    sample_world
  = (Raise TypeError, sample_world).
Proof.
  exact (proj1 (proj1 (add_package_needs_its_fields decimal_int decimal_float (fun s => s)
                         (post [("name", "Cheap"); ("capacity", "4"); ("dest_id", "1")]
                            (Some 1))
                         sample_world root eq_refl) eq_refl) eq_refl).
Defined.



(** ** A customer's own bookings *)

(** The page of an account lists exactly the bookings that the account
    owns, in storage order, and reads the store without changing it. *)
Theorem my_bookings_lists_own (req : request) (w : world) (u : User.t) :
  current_user req w = Some u ->
  exists bks,
    exec (my_bookings req) w = (Ok (render_customer_dash bks), w)
    /\ (forall b, In b bks <-> In b (bookings (db w)) /\ Booking.user_id b = User.id u).
Proof.
  intros Hu. eexists. split.
  - unfold exec, my_bookings, login_required_page. rewrite Hu. reflexivity.
  - intros b. rewrite filter_In, Z.eqb_eq. reflexivity.
Qed.

Lemma my_bookings_lists_own_witness :
  exists bks,
    exec (my_bookings (get (Some 2))) (mk_world pending_db [])
    = (Ok (render_customer_dash bks), mk_world pending_db [])
    /\ (forall b, In b bks <-> In b (bookings pending_db) /\ Booking.user_id b = 2).
Proof.
  exact (my_bookings_lists_own (get (Some 2)) (mk_world pending_db []) alice eq_refl).
Defined.

(** After a booking request for a count that an INTEGER column holds and
    a total that is a number, the page of the account that booked ends with
    the new booking, and the page of every other account is what it was. *)
Theorem booking_shows_in_my_bookings (py_int : string -> option Z) (pkg_id utcnow : Z)
    (req : request) (w : world) (u : User.t) (p : Package.t) (n : Z) (f : float)
    (req' : request) (v : User.t) :
  current_user req w = Some u ->
  query_get Package.id pkg_id (packages (db w)) = Some p ->
  travelers_field py_int req w = Ok (n, w) ->
  sqlite_integer n = true ->
  float_of_int n = Some f ->
  PrimFloat.is_nan (PrimFloat.mul (Package.price p) f) = false ->
  current_user req' w = Some v ->
  exists w' before,
    run (book_package py_int pkg_id utcnow req) w = (Ok (redirect "my_bookings"), w')
    /\ exec (my_bookings req') w = (Ok (render_customer_dash before), w)
    /\ exec (my_bookings req') w'
       = (Ok (render_customer_dash
                (before ++
                   if User.id u =? User.id v
                   then [new_booking (db w) u pkg_id n
                           (PrimFloat.mul (Package.price p) f) utcnow]
                   else [])), w').
Proof.
  intros Hu Hp Hn Hr Hf _ Hv. eexists. eexists. split; [| split].
  - rewrite (book_package_run py_int pkg_id utcnow req w u Hu p n Hp Hn), Hf, Hr.
    reflexivity.
  - unfold exec, my_bookings, login_required_page. rewrite Hv. reflexivity.
  - unfold exec, my_bookings, login_required_page.
    replace (current_user req' (booked w _)) with (Some v) by (rewrite <- Hv; reflexivity).
    unfold bind, query, ret. cbn [db booked bookings with_bookings].
    rewrite filter_app. cbn [filter new_booking Booking.user_id]. reflexivity.
Qed.

Lemma booking_shows_in_my_bookings_witness :
  exists w' before,
    run (book_package decimal_int 1 1000 (post [("travelers", "2")] (Some 2))) sample_world
    = (Ok (redirect "my_bookings"), w')
    /\ exec (my_bookings (get (Some 2))) sample_world
       = (Ok (render_customer_dash before), sample_world)
    /\ exec (my_bookings (get (Some 2))) w'
       = (Ok (render_customer_dash
                (before ++ [Booking.mk 1 2 1 2 200%float "Pending" 1000])), w').
Proof.
  exact (booking_shows_in_my_bookings decimal_int 1 1000
           (post [("travelers", "2")] (Some 2)) sample_world alice goa_trip 2 2%float
           (get (Some 2)) alice eq_refl eq_refl eq_refl eq_refl eq_refl eq_refl eq_refl).
Defined.

(** ** Accounts: registration, login and the session *)

Lemma has_username_find (n : string) (us : list User.t) :
  has_username n us = false <-> filter_by_username (Some n) us = None.
Proof.
  unfold has_username, filter_by_username.
  induction us as [| u us IH]; cbn; [tauto |].
  destruct (String.eqb (User.username u) n); cbn; [split; discriminate | exact IH].
Qed.

Lemma filter_by_username_snoc (n : string) (us : list User.t) (u : User.t) :
  has_username n us = false -> User.username u = n ->
  filter_by_username (Some n) (us ++ [u]) = Some u.
Proof.
  unfold has_username, filter_by_username. intros Hno Hu.
  induction us as [| x us IH]; cbn in *.
  - now rewrite Hu, String.eqb_refl.
  - destruct (String.eqb (User.username x) n); [discriminate | now apply IH].
Qed.

Section Account_properties.

Variable generate_password_hash : option string -> string -> result string.
Variable check_password_hash : string -> option string -> result bool.

(** A registration stores one new account under a fresh key, with the
    output of the hash function as its password and the role 'customer',
    whatever the form holds; a username that is taken or missing is refused
    by the store with [IntegrityError] and no account is added. *)
Theorem register_creates_customer (salt : string) (req : request) (w : world) (h : string) :
  method req = POST ->
  generate_password_hash (multidict_get "password" (form req)) salt = Ok h ->
  (forall n,
     multidict_get "username" (form req) = Some n ->
     has_username n (users (db w)) = false ->
     exec (register generate_password_hash salt req) w
     = (Ok (mk_reply (respond (redirect "login")) (session_user_id req)),
        mk_world (with_users (users (db w) ++ [new_account (db w) n h "customer"]) (db w)) (flashes w))
     /\ ~ In (User.id (new_account (db w) n h "customer")) (map User.id (users (db w))))
  /\ (forall n,
        multidict_get "username" (form req) = Some n ->
        has_username n (users (db w)) = true ->
        exec (register generate_password_hash salt req) w = (Raise IntegrityError, w))
  /\ (multidict_get "username" (form req) = None ->
      exec (register generate_password_hash salt req) w = (Raise IntegrityError, w)).
Proof.
  intros Hm Hh. split; [| split].
  - intros n Hn Hfree. split; [| apply next_id_fresh].
    unfold exec, register. rewrite Hm. unfold bind at 1, lift. rewrite Hh.
    unfold bind, insert_user. now rewrite Hn, Hfree.
  - intros n Hn Ht. unfold exec, register. rewrite Hm. unfold bind at 1, lift.
    rewrite Hh. unfold bind, insert_user. now rewrite Hn, Ht.
  - intros Hn. unfold exec, register. rewrite Hm. unfold bind at 1, lift.
    rewrite Hh. unfold bind, insert_user. now rewrite Hn.
Qed.

(** A login form logs in the first account with the submitted username
    when the hash check accepts the submitted password: the session then
    holds that account, and the answer is a redirect to the admin dashboard
    for an admin and to the index for everyone else.  With an unknown
    username or a refused password the session stays as it was, the login
    page is shown again and 'Invalid Credentials' is flashed.  The store is
    never written. *)
Theorem login_outcomes (req : request) (w : world) :
  method req = POST ->
  (forall u,
     filter_by_username (multidict_get "username" (form req)) (users (db w)) = Some u ->
     check_password_hash (User.password u) (multidict_get "password" (form req)) = Ok true ->
     exec (login check_password_hash req) w
     = (Ok (mk_reply
              (respond (redirect (if String.eqb (User.role u) "admin"
                                  then "admin_dashboard" else "index")))
              (Some (User.id u))), w))
  /\ (filter_by_username (multidict_get "username" (form req)) (users (db w)) = None
      \/ (exists u,
            filter_by_username (multidict_get "username" (form req)) (users (db w))
            = Some u
            /\ check_password_hash (User.password u)
                 (multidict_get "password" (form req)) = Ok false) ->
      exec (login check_password_hash req) w
      = (Ok (mk_reply render_login (session_user_id req)),
         mk_world (db w) (flashes w ++ [("Invalid Credentials", "danger")])))
  /\ db (snd (exec (login check_password_hash req) w)) = db w.
Proof.
  intros Hm. split; [| split].
  - intros u Hu Hc. unfold exec, login. rewrite Hm.
    unfold bind at 1, query. rewrite Hu. unfold bind at 1, lift. now rewrite Hc.
  - intros [Hu | [u [Hu Hc]]]; unfold exec, login; rewrite Hm;
      unfold bind at 1, query; rewrite Hu.
    + reflexivity.
    + unfold bind at 1, lift. now rewrite Hc.
  - unfold exec, login. rewrite Hm. unfold bind at 1, query.
    destruct (filter_by_username _ (users (db w))) as [u |].
    + unfold bind at 1, lift.
      destruct (check_password_hash _ _) as [[|] | e]; reflexivity.
    + reflexivity.
Qed.

(** Registration and login fit together: after a registration of name [n]
    that succeeded, a login form with that name is checked against the
    hash stored by the registration, and when the check accepts, the
    session holds the new account and the answer is a redirect to the
    public index, never to the admin dashboard. *)
Theorem register_then_login (salt : string) (req req' : request) (w : world)
    (n h : string) :
  method req = POST ->
  multidict_get "username" (form req) = Some n ->
  has_username n (users (db w)) = false ->
  generate_password_hash (multidict_get "password" (form req)) salt = Ok h ->
  method req' = POST ->
  multidict_get "username" (form req') = Some n ->
  exists w',
    exec (register generate_password_hash salt req) w
    = (Ok (mk_reply (respond (redirect "login")) (session_user_id req)), w')
    /\ exec (login check_password_hash req') w'
       = match check_password_hash h (multidict_get "password" (form req')) with
         | Ok true =>
             (Ok (mk_reply (respond (redirect "index"))
                    (Some (next_id (map User.id (users (db w)))))), w')
         | Ok false =>
             (Ok (mk_reply render_login (session_user_id req')),
              mk_world (db w') (flashes w' ++ [("Invalid Credentials", "danger")]))
         | Raise e => (Raise e, w')
         end.
Proof.
  intros Hm Hn Hfree Hh Hm' Hn'.
  exists (mk_world
            (with_users (users (db w) ++ [new_account (db w) n h "customer"]) (db w))
            (flashes w)).
  split.
  - unfold exec, register. rewrite Hm. unfold bind at 1, lift. rewrite Hh.
    unfold bind, insert_user. rewrite Hn, Hfree. reflexivity.
  - unfold exec, login. rewrite Hm'. unfold bind at 1, query. rewrite Hn'.
    cbn [db users with_users].
    rewrite (filter_by_username_snoc n (users (db w))
               (new_account (db w) n h "customer") Hfree eq_refl).
    unfold bind at 1, lift. cbn [User.password new_account User.role User.id].
    destruct (check_password_hash h _) as [[|] | e]; reflexivity.
Qed.

(** The session that a login leaves names the account that logged in: with
    unique account keys the next request runs as that account; after a
    logout the next request is anonymous. *)
Theorem session_follows_login_and_logout (req next : request) (w : world) (u : User.t) :
  distinct (map User.id (users (db w))) = true ->
  method req = POST ->
  filter_by_username (multidict_get "username" (form req)) (users (db w)) = Some u ->
  check_password_hash (User.password u) (multidict_get "password" (form req)) = Ok true ->
  (exists rp,
     exec (login check_password_hash req) w = (Ok rp, w)
     /\ current_user (with_session (session rp) next) w = Some u)
  /\ (exists rp,
        exec (logout next) w = (Ok rp, w)
        /\ body rp = respond (redirect "index")
        /\ current_user (with_session (session rp) next) w = None).
Proof.
  intros Hd Hm Hu Hc. split.
  - eexists. split.
    + unfold exec, login. rewrite Hm.
      unfold bind at 1, query. rewrite Hu. unfold bind at 1, lift. rewrite Hc. reflexivity.
    + cbn. apply query_get_In; [exact Hd |].
      destruct (multidict_get "username" (form req)) as [n |]; [| discriminate].
      exact (proj1 (find_some _ _ Hu)).
  - eexists. repeat split.
Qed.

(** The startup block adds the account 'admin' with the role 'admin' when
    no account has that name, and changes nothing when one has, whoever it
    belongs to; running it again changes nothing. *)
Theorem seed_admin_once (salt salt' : string) (w : world) (h : string) :
  generate_password_hash (Some "admin123") salt = Ok h ->
  (forall a,
     filter_by_username (Some "admin") (users (db w)) = Some a ->
     exec (seed_admin generate_password_hash salt) w = (Ok tt, w))
  /\ (filter_by_username (Some "admin") (users (db w)) = None ->
      let seeded :=
        mk_world
          (with_users
             (users (db w) ++
                [new_account (db w) "admin" h "admin"]) (db w))
          (flashes w) in
      exec (seed_admin generate_password_hash salt) w = (Ok tt, seeded)
      /\ exec (seed_admin generate_password_hash salt') seeded = (Ok tt, seeded)).
Proof.
  intros Hh. split.
  - intros a Ha. unfold exec, seed_admin, bind, query. now rewrite Ha.
  - intros Hnone seeded.
    pose proof (proj2 (has_username_find "admin" (users (db w))) Hnone) as Hfree.
    split.
    + unfold exec, seed_admin. unfold bind at 1, query. rewrite Hnone.
      unfold bind, lift. rewrite Hh. unfold insert_user. now rewrite Hfree.
    + unfold exec, seed_admin. unfold bind at 1, query.
      unfold seeded. cbn [db users with_users].
      now rewrite (filter_by_username_snoc "admin" (users (db w))
                     (new_account (db w) "admin" h "admin") Hfree eq_refl).
Qed.

End Account_properties.

(** ** Accounts and the schema constraints *)

Lemma steps_exec {A : Type} (R : database -> database -> Prop) (h : M A) (w : world) :
  (forall d, R d d) -> steps R h -> R (db w) (db (snd (exec h w))).
Proof.
  intros Hrefl Hh. unfold exec. destruct (h w) as [[a w'] | e] eqn:E; cbn.
  - exact (Hh _ _ _ E).
  - apply Hrefl.
Qed.

Lemma usernames_distinct_snoc (us : list User.t) (u : User.t) :
  usernames_distinct us = true ->
  has_username (User.username u) us = false ->
  usernames_distinct (us ++ [u]) = true.
Proof.
  unfold has_username. induction us as [| x us IH]; cbn; intros Hd Hfree; [reflexivity |].
  apply andb_true_iff in Hd as [Hx Hd]. apply negb_true_iff in Hx.
  apply orb_false_iff in Hfree as [Hxu Hfree].
  apply andb_true_iff. split; [| now apply IH].
  apply negb_true_iff. unfold has_username in *. rewrite existsb_app, Hx. cbn.
  rewrite orb_false_r. now rewrite String.eqb_sym.
Qed.

(** The store stays well formed, with unique usernames, under insertion of
    an account. *)
Lemma insert_user_keeps_constraints (n : option string) (h role : string) :
  steps (fun d d' =>
           db_ok d = true /\ usernames_distinct (users d) = true ->
           db_ok d' = true /\ usernames_distinct (users d') = true)
    (insert_user n h role).
Proof.
  intros w a w' H. unfold insert_user in H.
  destruct n as [n |]; [| discriminate].
  destruct (has_username n (users (db w))) eqn:Hfree; [discriminate |].
  inversion H; subst; clear H. cbn [db].
  intros [(H1 & H2 & H3 & H4 & H5 & H6)%db_ok_iff Hu]. split.
  - apply db_ok_iff. cbn [users destinations packages bookings with_users].
    repeat split; try assumption.
    + now apply distinct_snoc_next_id.
    + revert H6. apply forallb_weaken. intros b Hb.
      apply andb_true_iff in Hb as [Hp Hb]. rewrite Hp. cbn.
      now apply has_key_app.
  - cbn [users with_users]. now apply usernames_distinct_snoc.
Qed.

(** Registration and the seeding of the admin keep the store well formed
    and the usernames unique; a login does not write to the store. *)
Theorem accounts_keep_constraints
    (generate_password_hash : option string -> string -> result string)
    (salt : string) (req : request) (w : world) :
  db_ok (db w) = true ->
  usernames_distinct (users (db w)) = true ->
  (db_ok (db (snd (exec (register generate_password_hash salt req) w))) = true
   /\ usernames_distinct
        (users (db (snd (exec (register generate_password_hash salt req) w)))) = true)
  /\ (db_ok (db (snd (exec (seed_admin generate_password_hash salt) w))) = true
      /\ usernames_distinct
           (users (db (snd (exec (seed_admin generate_password_hash salt) w)))) = true).
Proof.
  intros Hok Hu.
  set (R := fun d d' : database =>
        db_ok d = true /\ usernames_distinct (users d) = true ->
        db_ok d' = true /\ usernames_distinct (users d') = true).
  assert (Hrefl : forall d, R d d) by (intros d H; exact H).
  assert (Htrans : forall a b c, R a b -> R b c -> R a c)
    by (intros a b c Hab Hbc H; auto).
  split.
  - apply (steps_exec R _ w Hrefl); [| now split].
    unfold register. destruct (method req); [now apply steps_ret |].
    apply steps_bind; [assumption | now apply steps_lift | intros h].
    apply steps_bind; [assumption | apply insert_user_keeps_constraints | intros _].
    now apply steps_ret.
  - apply (steps_exec R _ w Hrefl); [| now split].
    unfold seed_admin.
    apply steps_bind; [assumption | now apply steps_query | intros [a |]].
    + now apply steps_ret.
    + apply steps_bind; [assumption | now apply steps_lift | intros h].
      apply insert_user_keeps_constraints.
Qed.

(** ** Concrete runs of the account handlers *)

Lemma handlers_keep_store_ok_witness :
  store_ok (db (snd (run (add_package decimal_int decimal_float (fun s => s)
                            (post [("name", "Nowhere"); ("price", "10");
                                   ("capacity", "5"); ("dest_id", "99")] (Some 1)))
                       sample_world))) = true.
Proof.
  exact (proj1 (proj2 (proj2 (proj2
           (handlers_keep_store_ok decimal_int decimal_float (fun s => s)
              (post [("name", "Nowhere"); ("price", "10"); ("capacity", "5");
                     ("dest_id", "99")] (Some 1))
              sample_world eq_refl))))).
Defined.

Lemma accounts_keep_constraints_witness :
  db_ok (db (snd (exec (register toy_hash "salt"
                          (post [("username", "bob"); ("password", "pw1")] None))
                    sample_world))) = true
  /\ usernames_distinct
       (users (db (snd (exec (register toy_hash "salt"
                                (post [("username", "bob"); ("password", "pw1")] None))
                          sample_world)))) = true.
Proof.
  exact (proj1 (accounts_keep_constraints toy_hash "salt"
                  (post [("username", "bob"); ("password", "pw1")] None)
                  sample_world eq_refl eq_refl)).
Defined.

Lemma register_creates_customer_witness :
  exec (register toy_hash "salt" (post [("username", "bob"); ("password", "pw1")] None))
    sample_world
  = (Ok (mk_reply (respond (redirect "login")) None),
     mk_world (with_users [root; alice; User.mk 3 "bob" "salt$pw1" "customer"] sample_db)
       []).
Proof.
  exact (proj1 (proj1 (register_creates_customer toy_hash "salt"
                         (post [("username", "bob"); ("password", "pw1")] None)
                         sample_world "salt$pw1" eq_refl eq_refl)
                  "bob" eq_refl eq_refl)).
Defined.

Lemma login_outcomes_witness :
  exec (login toy_check (post [("username", "admin"); ("password", "4567")] None))
    sample_world
  = (Ok (mk_reply (respond (redirect "admin_dashboard")) (Some 1)), sample_world).
Proof.
  exact (proj1 (login_outcomes toy_check
                  (post [("username", "admin"); ("password", "4567")] None)
                  sample_world eq_refl) root eq_refl eq_refl).
Defined.

Lemma register_then_login_witness :
  exists w',
    exec (register toy_hash "salt" (post [("username", "bob"); ("password", "pw1")] None))
      sample_world
    = (Ok (mk_reply (respond (redirect "login")) None), w')
    /\ exec (login toy_check (post [("username", "bob"); ("password", "pw1")] None)) w'
       = (Ok (mk_reply (respond (redirect "index")) (Some 3)), w').
Proof.
  exact (register_then_login toy_hash toy_check "salt"
           (post [("username", "bob"); ("password", "pw1")] None)
           (post [("username", "bob"); ("password", "pw1")] None)
           sample_world "bob" "salt$pw1" eq_refl eq_refl eq_refl eq_refl eq_refl eq_refl).
Defined.

Lemma session_follows_login_and_logout_witness :
  (exists rp,
     exec (login toy_check (post [("username", "alice"); ("password", "0123")] None))
       sample_world = (Ok rp, sample_world)
     /\ current_user (with_session (session rp) (get None)) sample_world = Some alice)
  /\ (exists rp,
        exec (logout (get None)) sample_world = (Ok rp, sample_world)
        /\ body rp = respond (redirect "index")
        /\ current_user (with_session (session rp) (get None)) sample_world = None).
Proof.
  exact (session_follows_login_and_logout toy_check
           (post [("username", "alice"); ("password", "0123")] None) (get None)
           sample_world alice eq_refl eq_refl eq_refl eq_refl).
Defined.

Lemma seed_admin_once_witness :
  exec (seed_admin toy_hash "salt") (mk_world (mk_database [] [] [] []) [])
  = (Ok tt,
     mk_world (mk_database [User.mk 1 "admin" "salt$admin123" "admin"] [] [] []) []).
Proof.
  exact (proj1 (proj2 (seed_admin_once toy_hash "salt" "pepper"
                         (mk_world (mk_database [] [] [] []) []) "salt$admin123" eq_refl)
                  eq_refl)).
Defined.
